(** * telegram-bot-repo: the lookup, cache, rate-limit and ledger core

    A shallow embedding of [utils.py], [user_management.py] and
    [bot_commands.py] (with the cache schema of [main.py]), followed by the
    properties of the cache store, the rate limiter, the user ledger and the
    question handler.

    Conventions of the embedding.
    - SQLite tables are finite maps from the primary key to the row.
    - [int(time.time())] is an explicit integer argument: one argument per
      place where the source reads the clock.
    - Effects of [user_management.py] and [bot_commands.py] (store reads and
      writes, replies, log records, raised and caught exceptions) run in a
      small state-and-exception monad over [World]; every effect is recorded
      in the world's trace, oldest first.
    - Store failures are modelled where the source handles them: [find_one]
      on the MongoDB collection and every statement on [user_data.db] may
      raise. Statements on [cache.db] and [reply_text] are taken to succeed.
    - [utils.py] and [main.py] both create table [cache] in [cache.db]; a
      row written through the two-column statements of [bot_commands.py]
      has no expiry ([expire_at] is NULL).
    - [handle_question] calls [scrape_past_papers] and
      [find_similar_questions], which no module of the repository defines;
      they are parameters of the handler, free to return any list or to
      raise. A user dict and a document are records of the fields that the
      source reads. *)

From Stdlib Require Import ZArith String Ascii List DecimalString DecimalZ DecimalPos QArith_base.
From stdpp Require Import base gmap strings list.

Local Open Scope Z_scope.

(** ** Python built-ins used by the source *)

Module Py.

(** Exceptions that the modelled code can raise or catch. *)
Inductive exn : Type :=
  | ValueError                  (* int() on a non-numeral *)
  | TypeError                   (* subscripting None *)
  | StorageError (what : string)(* sqlite3 / pymongo failure *)
  | OtherError (what : string). (* raised by a collaborator *)

Inductive result (A : Type) : Type :=
  | Ok (a : A)
  | Raise (e : exn).
Arguments Ok {A} a.
Arguments Raise {A} e.

(** [str.isspace] on the ASCII range: TAB..CR, FS..US and SPACE. *)
Definition is_space (a : ascii) : bool :=
  let n := N_of_ascii a in
  ((9 <=? n) && (n <=? 13) || (28 <=? n) && (n <=? 32))%N.

Definition is_digit (a : ascii) : bool :=
  let n := N_of_ascii a in ((48 <=? n) && (n <=? 57))%N.

Fixpoint lstrip (cs : list ascii) : list ascii :=
  match cs with
  | c :: r => if is_space c then lstrip r else cs
  | [] => []
  end.

Definition strip_chars (cs : list ascii) : list ascii :=
  rev (lstrip (rev (lstrip cs))).

(** [s.strip()] *)
Definition strip (s : string) : string :=
  string_of_list_ascii (strip_chars (list_ascii_of_string s)).

(** [str(n)] for an int: decimal digits, a leading [-] when negative. *)
Definition str (n : Z) : string := NilZero.string_of_int (Z.to_int n).

(** Underscores of an int literal: single, and only between two digits.
    [prev] tells whether the previous character was a digit. *)
Fixpoint drop_underscores (prev : bool) (cs : list ascii) : option (list ascii) :=
  match cs with
  | [] => if prev then Some [] else None
  | c :: r =>
      if Ascii.eqb c "_" then
        if prev then
          match r with
          | d :: _ => if is_digit d then drop_underscores false r else None
          | [] => None
          end
        else None
      else if is_digit c then option_map (cons c) (drop_underscores true r)
      else None
  end.

(** [int(s)] for a str: surrounding whitespace is ignored, then an
    optional sign and a non-empty run of decimal digits follow. [None]
    stands for the ValueError. *)
Definition int (s : string) : option Z :=
  let cs := strip_chars (list_ascii_of_string s) in
  let '(negative, body) :=
    match cs with
    | c :: r =>
        if Ascii.eqb c "-" then (true, r)
        else if Ascii.eqb c "+" then (false, r)
        else (false, cs)
    | [] => (false, cs)
    end in
  match drop_underscores false body with
  | Some ds =>
      match NilZero.uint_of_string (string_of_list_ascii ds) with
      | Some u => Some (if negative then - Z.of_uint u else Z.of_uint u)
      | None => None
      end
  | None => None
  end.

(** Truth value of an optional int ([None] and [0] are falsy). *)
Definition truthy_int (o : option Z) : bool :=
  match o with
  | Some n => negb (n =? 0)
  | None => false
  end.

(** Truth value of an optional str ([None] and [""] are falsy). *)
Definition truthy_str (o : option string) : bool :=
  match o with
  | Some EmptyString => false
  | Some _ => true
  | None => false
  end.

End Py.

Import Py.

(** ** utils.py: the key-value cache with expiry and the rate limiter *)

(** A row of table [cache (key TEXT PRIMARY KEY, value TEXT, expire_at
    INTEGER)]; [expire_at = None] is SQL NULL. *)
Record CacheRow : Type := mkCacheRow {
  value : string;
  expire_at : option Z
}.

Abbreviation CacheTable := (gmap string CacheRow).

Module Utils.

Definition default_expire : option Z := Some 3600.

(** [cache_data(key, value, expire, sqlite_conn)]; [now] is
    [int(time.time())]. *)
Definition cache_data (key val : string) (expire : option Z) (now : Z)
    (t : CacheTable) : CacheTable :=
  let expire_at :=
    if truthy_int expire then Some (now + default 0 expire) else None in
  <[key := mkCacheRow val expire_at]> t.

(** [delete_cached_data(key, sqlite_conn)] *)
Definition delete_cached_data (key : string) (t : CacheTable) : CacheTable :=
  delete key t.

(** [get_cached_data(key, sqlite_conn)]: the value read ([None] when
    absent) and the table afterwards. *)
Definition get_cached_data (key : string) (now : Z) (t : CacheTable)
    : option string * CacheTable :=
  match t !! key with
  | Some row =>
      match expire_at row with
      | None => (Some (value row), t)
      | Some e =>
          if now <? e then (Some (value row), t)
          else (None, delete_cached_data key t)
      end
  | None => (None, t)
  end.

Definition rate_key (user_id : Z) : string := "rate_limit:" +:+ str user_id.

(** [is_rate_limited(user_id, max_requests, window_seconds, sqlite_conn)].
    [now] is the clock read by the expiry test and [now_w] the clock read
    by the final [cache_data]. [Ok (true, _)] means limited (not allowed).
    The ValueError of [int(current_count)] is raised before any write. *)
Definition is_rate_limited (user_id max_requests window_seconds : Z)
    (now now_w : Z) (t : CacheTable) : result (bool * CacheTable) :=
  let key := rate_key user_id in
  let increment (current_count : Z) (t' : CacheTable) :=
    let new_count := current_count + 1 in
    Ok (false, cache_data key (str new_count) (Some window_seconds) now_w t') in
  match t !! key with
  | Some row =>
      match int (value row) with
      | None => Raise ValueError
      | Some current_count =>
          let live :=
            match expire_at row with
            | None => true
            | Some e => now <? e
            end in
          if live then
            if max_requests <=? current_count then Ok (true, t)
            else increment current_count t
          else increment 0 (delete_cached_data key t)
      end
  | None => increment 0 t
  end.

Definition default_max_requests : Z := 10.
Definition default_window_seconds : Z := 60.

(** The stored rate window of a user, as the limiter reads it. *)
Definition window_count (user_id : Z) (t : CacheTable) : option Z :=
  row ← t !! rate_key user_id; int (value row).

Definition window_expires_at (user_id : Z) (t : CacheTable) : option (option Z) :=
  expire_at <$> t !! rate_key user_id.

(** The window exists and has not expired at clock reading [now]. *)
Definition window_live (user_id : Z) (now : Z) (t : CacheTable) : bool :=
  match t !! rate_key user_id with
  | Some row =>
      match expire_at row with
      | None => true
      | Some e => now <? e
      end
  | None => false
  end.

End Utils.

(** ** The world of the bot: stores, their faults, and the trace *)

(** A row of [users (user_id INTEGER PRIMARY KEY, coins, language,
    achievements)] in [user_data.db], without its key. *)
Record UserRow : Type := mkUserRow {
  coins : Z;
  language : string;
  achievements : string
}.

(** The user dict handed to callers of [get_user]. *)
Record User : Type := mkUser {
  user_id : Z;
  user_coins : Z;
  user_language : string;
  user_achievements : string
}.

(** A scraped question/answer pair. *)
Record Document : Type := mkDocument {
  question : string;
  answer : string
}.

Inductive Level : Type := INFO | ERROR.

(** Observable effects, in program order. Log messages keep the fixed part
    of the source's f-string. *)
Inductive Event : Type :=
  | MongoFindOne (uid : Z)
  | UsersSelect (uid : Z)
  | UsersInsertOrIgnore (uid : Z)
  | UsersUpdateCoins (uid delta : Z)
  | UsersUpdateLanguage (uid : Z) (lang : string)
  | CacheSelect (key : string)
  | CacheReplace (key val : string)
  | Scrape (subject level paper : string)
  | FindSimilar (q : string) (threshold : option Q)
  | Reply (text : string) (keyboard : list (string * string))
  | Log (lvl : Level) (msg : string).

Record World : Type := mkWorld {
  (** MongoDB collection [users]: its documents in natural order, or the
      exception that [find_one] raises while the server is unreachable. *)
  users_collection : result (list User);
  (** Table [users] of [user_data.db]. *)
  users : gmap Z UserRow;
  (** When [Some e], every statement on [user_data.db] raises [e]. *)
  users_fault : option exn;
  (** Table [cache] of [cache.db]. *)
  cache : CacheTable;
  trace : list Event
}.

(** State and exceptions: the world reached so far survives a raise. *)
Definition M (A : Type) : Type := World -> result A * World.

Definition ret {A} (a : A) : M A := fun w => (Ok a, w).

Definition bind {A B} (m : M A) (k : A -> M B) : M B :=
  fun w =>
    match m w with
    | (Ok a, w') => k a w'
    | (Raise e, w') => (Raise e, w')
    end.

Definition raise {A} (e : exn) : M A := fun w => (Raise e, w).

(** [try: body  except Exception as e: handler e] *)
Definition try_except {A} (body : M A) (handler : exn -> M A) : M A :=
  fun w =>
    match body w with
    | (Ok a, w') => (Ok a, w')
    | (Raise e, w') => handler e w'
    end.

#[global] Instance M_ret : MRet M := @ret.
#[global] Instance M_bind : MBind M := fun A B k m => bind m k.

Definition emit (e : Event) : M unit :=
  fun w => (Ok tt, mkWorld (users_collection w) (users w) (users_fault w)
                            (cache w) (trace w ++ [e])).

Definition set_users (u : gmap Z UserRow) : M unit :=
  fun w => (Ok tt, mkWorld (users_collection w) u (users_fault w)
                            (cache w) (trace w)).

Definition set_cache (c : CacheTable) : M unit :=
  fun w => (Ok tt, mkWorld (users_collection w) (users w) (users_fault w)
                            c (trace w)).

Definition get_world : M World := fun w => (Ok w, w).

Definition logging (lvl : Level) (msg : string) : M unit := emit (Log lvl msg).

(** ** user_management.py: the ledger *)

Module UserManagement.

(** [users_collection.find_one({"user_id": user_id})] *)
Definition find_one (uid : Z) : M (option User) :=
  emit (MongoFindOne uid) ;;
  w ← get_world;
  match users_collection w with
  | Ok docs => ret (List.find (fun u => bool_decide (user_id u = uid)) docs)
  | Raise e => raise e
  end.

(** [cursor.execute(...)] on [user_data.db]: the statement is attempted
    (and traced), and raises while the store is faulty. *)
Definition execute (stmt : Event) : M unit :=
  emit stmt ;;
  w ← get_world;
  match users_fault w with
  | Some e => raise e
  | None => ret tt
  end.

Definition get_user (uid : Z) : M (option User) :=
  found ← try_except
    (user ← find_one uid;
     match user with
     | Some u => logging INFO "User found in MongoDB" ;; ret (Some u)
     | None => ret None
     end)
    (fun e => logging ERROR "Error fetching user from MongoDB" ;; ret None);
  match found with
  | Some u => ret (Some u)
  | None =>
      (* Fallback to SQLite *)
      execute (UsersSelect uid) ;;
      w ← get_world;
      match users w !! uid with
      | Some row =>
          logging INFO "User found in SQLite" ;;
          ret (Some (mkUser uid (coins row) (language row) (achievements row)))
      | None => logging INFO "User not found." ;; ret None
      end
  end.

Definition default_row : UserRow := mkUserRow 10 "en" "[]".

Definition create_user (uid : Z) : M unit :=
  try_except
    (execute (UsersInsertOrIgnore uid) ;;
     w ← get_world;
     match users w !! uid with
     | Some _ => ret tt
     | None => set_users (<[uid := default_row]> (users w))
     end ;;
     logging INFO "User created with ID")
    (fun e => logging ERROR "Error creating user").

(** [UPDATE users SET ... WHERE user_id = ?]: applies [f] to the row of
    [uid] and yields [cursor.rowcount]. *)
Definition update_row (stmt : Event) (uid : Z) (f : UserRow -> UserRow) : M Z :=
  execute stmt ;;
  w ← get_world;
  match users w !! uid with
  | Some row => set_users (<[uid := f row]> (users w)) ;; ret 1
  | None => ret 0
  end.

Definition update_coins (uid coins_change : Z) : M unit :=
  try_except
    (rowcount ← update_row (UsersUpdateCoins uid coins_change) uid
       (fun r => mkUserRow (coins r + coins_change) (language r) (achievements r));
     if 0 <? rowcount then logging INFO "Updated coins for user"
     else logging INFO "User not found")
    (fun e => logging ERROR "Error updating coins").

Definition set_language (uid : Z) (lang : string) : M unit :=
  try_except
    (rowcount ← update_row (UsersUpdateLanguage uid lang) uid
       (fun r => mkUserRow (coins r) lang (achievements r));
     if 0 <? rowcount then logging INFO "Language updated for user"
     else logging INFO "User not found")
    (fun e => logging ERROR "Error setting language").

End UserManagement.

(** ** bot_commands.py: the cache of the bot and the question handler *)

(** Conversation states ([range(6)]) and [ConversationHandler.END]. *)
Inductive ConvState : Type :=
  | ASK_LANGUAGE | ASK_SUBJECT | ASK_LEVEL | ASK_PAPER
  | PROCESS_QUESTION | SELECT_SIMILAR | END.

(** [context.user_data] *)
Record UserData : Type := mkUserData {
  subject : option string;
  level : option string;
  paper : option string;
  similar_questions : option (list Document)
}.

(** The part of [update] that the handler reads. *)
Record Update : Type := mkUpdate {
  from_user_id : Z;
  text : string
}.

Module BotCommands.

(** [update.message.reply_text(text, reply_markup=...)] *)
Definition reply_text (t : string) : M unit := emit (Reply t []).

(** [cache_data(key, value, context)]: [INSERT OR REPLACE INTO cache
    (key, value)]; the replaced row carries no expiry. *)
Definition cache_data (key val : string) : M unit :=
  emit (CacheReplace key val) ;;
  w ← get_world;
  set_cache (<[key := mkCacheRow val None]> (cache w)).

(** [get_cached_data(key, context)]: [SELECT value FROM cache WHERE key = ?] *)
Definition get_cached_data (key : string) : M (option string) :=
  emit (CacheSelect key) ;;
  w ← get_world;
  ret (value <$> cache w !! key).

(** Inline keyboard of [list_similar_questions]: one button per candidate
    among the first five, labelled [f"{i+1}. {question}"], with callback
    data [str(i)]. *)
Definition similar_keyboard (qs : list Document) : list (string * string) :=
  imap (fun i q => (str (Z.of_nat i + 1) +:+ ". " +:+ question q, str (Z.of_nat i)))
       (take 5 qs).

Definition list_similar_questions (qs : list Document) : M unit :=
  emit (Reply "Here are some similar questions:" (similar_keyboard qs)).

(** How the [try] block of [handle_question] is left. *)
Inductive TryExit : Type :=
  | Returned (st : ConvState)     (* a [return] inside the block *)
  | FellThrough (ud : UserData).  (* the end of the block was reached *)

Section Handler.

(** The two helpers that [handle_question] calls and that no module of
    the repository defines. Either may raise. *)
Variable scrape_past_papers : string -> string -> string -> result (list Document).
Variable find_similar_questions :
  string -> list Document -> option Q -> result (list Document).

Definition call_scrape (s l p : string) : M (list Document) :=
  emit (Scrape s l p) ;;
  match scrape_past_papers s l p with
  | Ok docs => ret docs
  | Raise e => raise e
  end.

Definition call_find (q : string) (docs : list Document) (th : option Q)
    : M (list Document) :=
  emit (FindSimilar q th) ;;
  match find_similar_questions q docs th with
  | Ok r => ret r
  | Raise e => raise e
  end.

Definition cache_key (q s l p : string) : string :=
  q +:+ ":" +:+ s +:+ ":" +:+ l +:+ ":" +:+ p.

Definition handle_question (update : Update) (ud : UserData)
    : M (ConvState * UserData) :=
  let uid := from_user_id update in
  user ← UserManagement.get_user uid;
  match user with
  | None => raise TypeError        (* user["coins"] on None *)
  | Some u =>
      if user_coins u <=? 0 then
        reply_text "You don't have enough coins to ask a question." ;;
        ret (END, ud)
      else
        let q := strip (text update) in
        if negb (forallb truthy_str [subject ud; level ud; paper ud]) then
          reply_text "Please complete the selection process before asking a question." ;;
          ret (END, ud)
        else
          let s := default "" (subject ud) in
          let l := default "" (level ud) in
          let p := default "" (paper ud) in
          (* Check cache first *)
          let key := cache_key q s l p in
          cached_answer ← get_cached_data key;
          if truthy_str cached_answer then
            reply_text ("Cached answer: " +:+ default "" cached_answer) ;;
            UserManagement.update_coins uid (-1) ;;
            ret (END, ud)
          else
            (* Scrape past papers *)
            exit ← try_except
              (past_papers ← call_scrape s l p;
               match past_papers with
               | [] =>
                   reply_text "No past papers found for the selected subject, level, and paper." ;;
                   ret (Returned END)
               | _ :: _ =>
                   matched ← call_find q past_papers None;
                   ud' ← match matched with
                         | m0 :: _ =>
                             reply_text ("Exact match found: " +:+ answer m0) ;;
                             cache_data key (answer m0) ;;
                             ret ud
                         | [] =>
                             similar ← call_find q past_papers (Some (8 # 10)%Q);
                             match similar with
                             | s0 :: _ =>
                                 reply_text "The following question was found:" ;;
                                 reply_text (question s0) ;;
                                 reply_text (answer s0) ;;
                                 cache_data key (answer s0) ;;
                                 list_similar_questions similar ;;
                                 ret (mkUserData (subject ud) (level ud) (paper ud)
                                                 (Some similar))
                             | [] =>
                                 reply_text "No matching or similar questions found." ;;
                                 ret ud
                             end
                         end;
                   UserManagement.update_coins uid (-1) ;;
                   ret (FellThrough ud')
               end)
              (fun e =>
                 logging ERROR "Error handling question" ;;
                 reply_text "An error occurred while processing your request." ;;
                 ret (FellThrough ud));
            match exit with
            | Returned st => ret (st, ud)
            | FellThrough ud' => ret (SELECT_SIMILAR, ud')
            end
  end.

End Handler.

End BotCommands.

(** ** Vocabulary of the statements *)

(** A world with further events appended to its trace, and a world with
    another [users] table. *)
Definition traced (w : World) (es : list Event) : World :=
  mkWorld (users_collection w) (users w) (users_fault w) (cache w) (trace w ++ es).

Definition with_users (w : World) (u : gmap Z UserRow) : World :=
  mkWorld (users_collection w) u (users_fault w) (cache w) (trace w).

(** The reads of [k] at the clock readings [times], in order: the values
    read and the table left behind. *)
Fixpoint read_at (k : string) (times : list Z) (t : CacheTable)
    : list (option string) * CacheTable :=
  match times with
  | [] => ([], t)
  | now :: rest =>
      let '(r, t') := Utils.get_cached_data k now t in
      let '(rs, t'') := read_at k rest t' in
      (r :: rs, t'')
  end.

(** The row written by an allowed check. *)
Definition window_row (c win now_w : Z) : CacheRow :=
  mkCacheRow (str c) (if truthy_int (Some win) then Some (now_w + win) else None).

(** What the primary store answers for [uid]: a document, nothing, or a
    failure. *)
Definition primary_answer (w : World) (uid : Z) : result (option User) :=
  match users_collection w with
  | Ok docs => Ok (List.find (fun u => bool_decide (user_id u = uid)) docs)
  | Raise e => Raise e
  end.

(** What the secondary store holds for [uid], as a user dict. *)
Definition secondary_user (w : World) (uid : Z) : option User :=
  (fun r => mkUser uid (coins r) (language r) (achievements r)) <$> users w !! uid.

(** Reads of the keys [keys], in order, through the bot's
    [get_cached_data]. *)
Fixpoint bot_reads (keys : list string) : M (list (option string)) :=
  match keys with
  | [] => ret []
  | k :: rest =>
      r ← BotCommands.get_cached_data k;
      rs ← bot_reads rest;
      ret (r :: rs)
  end.

Definition is_fetch (e : Event) : bool :=
  match e with Scrape _ _ _ => true | _ => false end.

Definition is_debit (e : Event) : bool :=
  match e with UsersUpdateCoins _ _ => true | _ => false end.

Definition is_cache_access (e : Event) : bool :=
  match e with CacheSelect _ | CacheReplace _ _ => true | _ => false end.

(** An event that neither fetches documents, nor debits, nor touches the
    cache. *)
Definition quiet (e : Event) : Prop :=
  is_fetch e = false /\ is_debit e = false /\ is_cache_access e = false.

(** The cache key that [handle_question] builds for a request. *)
Definition request_key (update : Update) (ud : UserData) : string :=
  BotCommands.cache_key (strip (text update)) (default "" (subject ud))
                        (default "" (level ud)) (default "" (paper ud)).

(** ** Concrete requests *)

Definition demo_docs : list Document :=
  [mkDocument "What is 2+2?" "4"; mkDocument "What is 3+3?" "6"].

Definition demo_scrape (s l p : string) : result (list Document) := Ok demo_docs.

(** A matcher that finds nothing. *)
Definition demo_find_nothing (q : string) (docs : list Document) (th : option Q)
    : result (list Document) := Ok [].

Definition demo_selection : UserData :=
  mkUserData (Some "Mathematics"%string) (Some "O-Level"%string)
             (Some "Paper 1"%string) None.

Definition demo_update : Update := mkUpdate 7 "  What is 5+5? ".

(** User 7 with [coins] coins in the secondary store, an empty primary
    store, and the given cache table. *)
Definition demo_world (coins : Z) (c : CacheTable) : World :=
  mkWorld (Ok []) {[ 7 := mkUserRow coins "en" "[]" ]} None c [].

Definition demo_run (coins : Z) (c : CacheTable) : result (ConvState * UserData) * World :=
  BotCommands.handle_question demo_scrape demo_find_nothing demo_update
                              demo_selection (demo_world coins c).

(** A matcher that, without a threshold, returns the documents whose
    question is the one asked, and nothing otherwise. *)
Definition demo_find_exact (q : string) (docs : list Document) (th : option Q)
    : result (list Document) :=
  match th with
  | None => Ok (List.filter (fun d => String.eqb (question d) q) docs)
  | Some _ => Ok []
  end.

Definition demo_exact_update : Update := mkUpdate 7 "What is 2+2?".

(** A cache table in which user 7 has used up a limit of 10 requests in a
    window that is open until clock reading 1060, and which holds an answer
    for the demo request. *)
Definition demo_limited_cache : CacheTable :=
  <[ Utils.rate_key 7 := mkCacheRow "10" (Some 1060) ]>
    {[ request_key demo_update demo_selection := mkCacheRow "10" None ]}.

(** ** Runs of several calls *)

(** Consecutive rate-limiter checks of one user, one per pair of clock
    readings (expiry test, write): the answers in order and the table left
    behind. A raise stops the run. *)
Fixpoint rate_checks (uid max_requests window_seconds : Z) (clocks : list (Z * Z))
    (t : CacheTable) : result (list bool * CacheTable) :=
  match clocks with
  | [] => Ok ([], t)
  | (now, now_w) :: rest =>
      match Utils.is_rate_limited uid max_requests window_seconds now now_w t with
      | Ok (limited, t') =>
          match rate_checks uid max_requests window_seconds rest t' with
          | Ok (ls, t'') => Ok (limited :: ls, t'')
          | Raise e => Raise e
          end
      | Raise e => Raise e
      end
  end.

(** [n] consecutive calls of [update_coins(uid, delta)]. *)
Fixpoint update_coins_times (n : nat) (uid delta : Z) : M unit :=
  match n with
  | O => ret tt
  | S n' => UserManagement.update_coins uid delta ;; update_coins_times n' uid delta
  end.

(** A world with another [cache] table. *)
Definition with_cache (w : World) (c : CacheTable) : World :=
  mkWorld (users_collection w) (users w) (users_fault w) c (trace w).

(** The end of the [try] block of [handle_question] on an exception: the
    log record and the reply of the handler. *)
Definition error_exit (w : World) : World :=
  traced w [Log ERROR "Error handling question";
            Reply "An error occurred while processing your request." []].

(** The fetch, or one of the two matcher calls that [handle_question]
    makes after it, raises. *)
Definition lookup_raises
    (scrape_past_papers : string -> string -> string -> result (list Document))
    (find_similar_questions : string -> list Document -> option Q -> result (list Document))
    (update : Update) (ud : UserData) : Prop :=
  let q := strip (text update) in
  let s := default ""%string (subject ud) in
  let l := default ""%string (level ud) in
  let p := default ""%string (paper ud) in
  match scrape_past_papers s l p with
  | Raise _ => True
  | Ok [] => False
  | Ok docs =>
      match find_similar_questions q docs None with
      | Raise _ => True
      | Ok [] =>
          match find_similar_questions q docs (Some (8 # 10)%Q) with
          | Raise _ => True
          | Ok _ => False
          end
      | Ok _ => False
      end
  end.

(** A fetch that fails, and a matcher that fails. *)
Definition demo_scrape_fails (s l p : string) : result (list Document) :=
  Raise (OtherError "ConnectionError").

Definition demo_find_fails (q : string) (docs : list Document) (th : option Q)
    : result (list Document) := Raise (OtherError "NameError").

(** A matcher that finds no exact match and, with a threshold, returns
    every document. *)
Definition demo_find_similar (q : string) (docs : list Document) (th : option Q)
    : result (list Document) :=
  match th with
  | None => Ok []
  | Some _ => Ok docs
  end.

(** A fetch that succeeds with no document. *)
Definition demo_scrape_empty (s l p : string) : result (list Document) := Ok [].

(** A session in which only the subject has been chosen. *)
Definition demo_partial_selection : UserData :=
  mkUserData (Some "Mathematics"%string) None None None.

(** ** bot_commands.py: the menu handlers and the candidate selection *)

(** [update.callback_query]: who pressed the button and its callback data. *)
Record CallbackQuery : Type := mkCallbackQuery {
  cb_from_user_id : Z;
  cb_data : string
}.

(** An update that carries a callback query. [has_message] tells whether
    [update.message] is set; the handlers that reply through
    [update.message] raise AttributeError when it is None. *)
Record CallbackUpdate : Type := mkCallbackUpdate {
  callback_query : CallbackQuery;
  has_message : bool
}.

(** What a callback handler does to the chat, in program order. *)
Inductive BotAction : Type :=
  | QueryAnswer                                            (* query.answer() *)
  | EditMessageText (text : string) (keyboard : list (string * string))
  | ReplyText (text : string) (keyboard : list (string * string)).

(** [context.user_data] with the key ["language"] that [ask_subject] sets. *)
Record Session : Type := mkSession {
  language_choice : option string;
  selection : UserData
}.

Module Conversation.

Definition AttributeError : exn := OtherError "AttributeError".

(** [ask_language(update, context)] for an update whose message is set. *)
Definition ask_language : M ConvState :=
  emit (Reply "Please choose your preferred language:"
              [("English", "en"); ("French", "fr")]%string) ;;
  ret ASK_LANGUAGE.

(** [ask_language] for any update: [update.message.reply_text] needs the
    message. *)
Definition ask_language_on (message_set : bool) : M ConvState :=
  if message_set then ask_language else raise AttributeError.

(** [start(update, context)] *)
Definition start (update : Update) : M ConvState :=
  let uid := from_user_id update in
  logging INFO "User started the bot." ;;
  user ← UserManagement.get_user uid;
  match user with
  | None =>
      UserManagement.create_user uid ;;
      BotCommands.reply_text "Welcome! You've been awarded 10 free coins."
  | Some u =>
      BotCommands.reply_text
        ("Welcome back! You have " +:+ str (user_coins u) +:+ " coins.")
  end ;;
  ask_language.

(** [ask_subject(update, context)]: answers the query, keeps the callback
    data as the language of the session, calls [set_language], then edits
    the message into the subject menu. *)
Definition ask_subject (q : CallbackQuery) (sess : Session)
    : M (list BotAction * (ConvState * Session)) :=
  let lang := cb_data q in
  UserManagement.set_language (cb_from_user_id q) lang ;;
  ret ([QueryAnswer;
        EditMessageText "Please choose your subject:"
          [("Mathematics", "Mathematics"); ("Physics", "Physics");
           ("Chemistry", "Chemistry")]%string],
       (ASK_SUBJECT, mkSession (Some lang) (selection sess))).

(** [ask_level(update, context)] *)
Definition ask_level (q : CallbackQuery) (sess : Session)
    : list BotAction * (ConvState * Session) :=
  let ud := selection sess in
  ([QueryAnswer;
    EditMessageText "Please choose your level:"
      [("O-Level", "O-Level"); ("A-Level", "A-Level")]%string],
   (ASK_LEVEL,
    mkSession (language_choice sess)
              (mkUserData (Some (cb_data q)) (level ud) (paper ud)
                          (similar_questions ud)))).

(** [ask_paper(update, context)] *)
Definition ask_paper (q : CallbackQuery) (sess : Session)
    : list BotAction * (ConvState * Session) :=
  let ud := selection sess in
  ([QueryAnswer;
    EditMessageText "Please choose the paper type:"
      [("Paper 1", "Paper 1"); ("Paper 2", "Paper 2")]%string],
   (ASK_PAPER,
    mkSession (language_choice sess)
              (mkUserData (subject ud) (Some (cb_data q)) (paper ud)
                          (similar_questions ud)))).

(** [process_question(update, context)] *)
Definition process_question (q : CallbackQuery) (sess : Session)
    : list BotAction * (ConvState * Session) :=
  let ud := selection sess in
  ([QueryAnswer; EditMessageText "Please enter your question:" []],
   (PROCESS_QUESTION,
    mkSession (language_choice sess)
              (mkUserData (subject ud) (level ud) (Some (cb_data q))
                          (similar_questions ud)))).

(** [select_similar(update, context)]: the actions performed and the
    result. The reply of [list_similar_questions] goes through
    [update.message]. *)
Definition select_similar (update : CallbackUpdate) (ud : UserData)
    : list BotAction * result ConvState :=
  match int (cb_data (callback_query update)) with
  | None => ([QueryAnswer], Raise ValueError)
  | Some index =>
      let similar := default [] (similar_questions ud) in
      if (0 <=? index) && (index <? Z.of_nat (length similar)) then
        match similar !! Z.to_nat index with
        | Some selected =>
            let shown := [QueryAnswer;
                          EditMessageText ("Answer: " +:+ answer selected) []] in
            if has_message update then
              (shown ++ [ReplyText "Here are some similar questions:"
                                   (BotCommands.similar_keyboard similar)],
               Ok SELECT_SIMILAR)
            else (shown, Raise AttributeError)
        | None => ([QueryAnswer], Raise (OtherError "IndexError"))
        end
      else
        ([QueryAnswer; EditMessageText "Invalid selection." []], Ok SELECT_SIMILAR)
  end.

End Conversation.

(** * Properties *)

Ltac run_monad :=
  cbv [mbind M_bind bind mret M_ret ret raise try_except emit set_users set_cache
       get_world logging traced with_users
       UserManagement.execute UserManagement.update_row
       UserManagement.find_one]; cbn.

(** ** Python numerals: [int(str(n)) = n] *)

Section Numerals.

Lemma lstrip_no_space (cs : list ascii) :
  Forall (fun c => is_space c = false) cs -> lstrip cs = cs.
Proof.
  intros H. destruct H as [|c r Hc _]; simpl; [reflexivity|].
  now rewrite Hc.
Qed.

Lemma strip_chars_no_space (cs : list ascii) :
  Forall (fun c => is_space c = false) cs -> strip_chars cs = cs.
Proof.
  intros H. unfold strip_chars.
  rewrite (lstrip_no_space cs H).
  rewrite lstrip_no_space by now apply Forall_rev.
  apply rev_involutive.
Qed.

Lemma digit_not_space (c : ascii) : is_digit c = true -> is_space c = false.
Proof.
  destruct c as [[|] [|] [|] [|] [|] [|] [|] [|]]; vm_compute; congruence.
Qed.

Lemma digit_not_sign (c : ascii) :
  is_digit c = true -> Ascii.eqb c "-" = false /\ Ascii.eqb c "+" = false
                       /\ Ascii.eqb c "_" = false.
Proof.
  intros H; repeat split; apply Ascii.eqb_neq; intros ->; discriminate H.
Qed.

Lemma uint_digits (d : Decimal.uint) :
  Forall (fun c => is_digit c = true)
         (list_ascii_of_string (NilEmpty.string_of_uint d)).
Proof. induction d; simpl; constructor; auto. Qed.

Lemma drop_underscores_digits (prev : bool) (cs : list ascii) :
  Forall (fun c => is_digit c = true) cs ->
  cs <> [] \/ prev = true ->
  drop_underscores prev cs = Some cs.
Proof.
  intros H; revert prev; induction H as [|c r Hc Hr IH]; intros prev Hne.
  - destruct Hne as [Hne| ->]; [now destruct Hne | reflexivity].
  - simpl. destruct (digit_not_sign c Hc) as (_ & _ & ->). rewrite Hc.
    rewrite IH by now right. reflexivity.
Qed.

Lemma nonnil_chars (d : Decimal.uint) :
  d <> Decimal.Nil -> list_ascii_of_string (NilEmpty.string_of_uint d) <> [].
Proof. destruct d; simpl; congruence. Qed.

(** Parsing the digits of a non-empty numeral gives the numeral back. *)
Lemma int_of_digits (d : Decimal.uint) :
  d <> Decimal.Nil ->
  int (NilEmpty.string_of_uint d) = Some (Z.of_uint d)
  /\ int (String "-" (NilEmpty.string_of_uint d)) = Some (- Z.of_uint d).
Proof.
  intros Hd.
  pose proof (uint_digits d) as Hdig.
  pose proof (nonnil_chars d Hd) as Hne.
  assert (Hsp : Forall (fun c => is_space c = false)
                  (list_ascii_of_string (NilEmpty.string_of_uint d))).
  { eapply Forall_impl; [exact Hdig|]. intros c; apply digit_not_space. }
  assert (Hparse : NilZero.uint_of_string
            (string_of_list_ascii
               (list_ascii_of_string (NilEmpty.string_of_uint d))) = Some d).
  { rewrite string_of_list_ascii_of_string.
    rewrite <- (NilZero.usu d Hd). now destruct d. }
  split; unfold int.
  - rewrite strip_chars_no_space by exact Hsp.
    destruct (list_ascii_of_string (NilEmpty.string_of_uint d)) as [|c r] eqn:E;
      [congruence|].
    inversion Hdig as [|? ? Hc Hr]; subst.
    destruct (digit_not_sign c Hc) as (-> & -> & _).
    rewrite drop_underscores_digits by (auto; now left).
    now rewrite Hparse.
  - simpl list_ascii_of_string.
    rewrite strip_chars_no_space by (constructor; [reflexivity | exact Hsp]).
    simpl. rewrite drop_underscores_digits by (auto; now left).
    now rewrite Hparse.
Qed.

Lemma int_str (n : Z) : int (str n) = Some n.
Proof.
  unfold str. destruct n as [|p|p]; simpl Z.to_int.
  - reflexivity.
  - pose proof (Unsigned.to_uint_nonnil p) as Hp.
    pose proof (DecimalZ.of_to (Z.pos p)) as Hz. simpl in Hz.
    destruct (int_of_digits _ Hp) as [H _].
    simpl NilZero.string_of_int.
    replace (NilZero.string_of_uint (Pos.to_uint p))
      with (NilEmpty.string_of_uint (Pos.to_uint p))
      by (now destruct (Pos.to_uint p)).
    now rewrite H, Hz.
  - pose proof (Unsigned.to_uint_nonnil p) as Hp.
    pose proof (DecimalZ.of_to (Z.neg p)) as Hz. simpl in Hz.
    destruct (int_of_digits _ Hp) as [_ H].
    simpl NilZero.string_of_int.
    replace (NilZero.string_of_uint (Pos.to_uint p))
      with (NilEmpty.string_of_uint (Pos.to_uint p))
      by (now destruct (Pos.to_uint p)).
    now rewrite H, Hz.
Qed.

End Numerals.

Example str_negative : str (-120) = "-120"%string.
Proof. reflexivity. Qed.

Example int_accepts : int " +1_000 " = Some 1000 /\ int "-0" = Some 0.
Proof. split; reflexivity. Qed.

Example int_rejects :
  int "1__0" = None /\ int "_1" = None /\ int "1_" = None
  /\ int "-" = None /\ int "" = None /\ int "- 5" = None /\ int "ten" = None.
Proof. repeat split; reflexivity. Qed.

Example strip_both_ends : strip "  a b  " = "a b"%string.
Proof. reflexivity. Qed.

(** ** utils.py: cache entries and their expiry *)

Section CacheStore.

Implicit Types (t : CacheTable) (k v : string).

Lemma cache_data_lookup t k v expire now :
  Utils.cache_data k v expire now t !! k =
    Some (mkCacheRow v (if truthy_int expire
                        then Some (now + default 0 expire) else None)).
Proof. unfold Utils.cache_data. apply lookup_insert_eq. Qed.

Lemma cache_data_other t k k' v expire now :
  k <> k' -> Utils.cache_data k v expire now t !! k' = t !! k'.
Proof. intros Hne. unfold Utils.cache_data. now apply lookup_insert_ne. Qed.

Lemma get_cached_data_absent t k now :
  t !! k = None -> Utils.get_cached_data k now t = (None, t).
Proof. intros H. unfold Utils.get_cached_data. now rewrite H. Qed.

Lemma get_cached_data_live t k v e now :
  t !! k = Some (mkCacheRow v (Some e)) -> now < e ->
  Utils.get_cached_data k now t = (Some v, t).
Proof.
  intros H Hlt. unfold Utils.get_cached_data. rewrite H. simpl.
  now rewrite (proj2 (Z.ltb_lt now e) Hlt).
Qed.

Lemma get_cached_data_expired t k v e now :
  t !! k = Some (mkCacheRow v (Some e)) -> e <= now ->
  Utils.get_cached_data k now t = (None, delete k t).
Proof.
  intros H Hle. unfold Utils.get_cached_data. rewrite H. simpl.
  now rewrite (proj2 (Z.ltb_ge now e) Hle).
Qed.

Lemma get_cached_data_no_expiry t k v now :
  t !! k = Some (mkCacheRow v None) ->
  Utils.get_cached_data k now t = (Some v, t).
Proof. intros H. unfold Utils.get_cached_data. now rewrite H. Qed.

Lemma read_at_live t k v e times :
  t !! k = Some (mkCacheRow v (Some e)) ->
  Forall (fun now => now < e) times ->
  read_at k times t = (List.map (fun _ => Some v) times, t).
Proof.
  intros Hk H. induction H as [|now rest Hnow _ IH]; simpl; [reflexivity|].
  rewrite (get_cached_data_live t k v e now Hk Hnow). now rewrite IH.
Qed.

Lemma read_at_absent t k times :
  t !! k = None ->
  read_at k times t = (List.map (fun _ => None) times, t).
Proof.
  intros Hk. induction times as [|now rest IH]; simpl; [reflexivity|].
  rewrite (get_cached_data_absent t k now Hk). now rewrite IH.
Qed.

End CacheStore.




(** ** utils.py: the rate limiter *)

Section RateLimiter.

Implicit Types (t : CacheTable) (uid max win now now_w c : Z).

Lemma is_rate_limited_fresh t uid max win now now_w :
  t !! Utils.rate_key uid = None ->
  Utils.is_rate_limited uid max win now now_w t
  = Ok (false, <[Utils.rate_key uid := window_row 1 win now_w]> t).
Proof. intros H. unfold Utils.is_rate_limited. now rewrite H. Qed.

Lemma is_rate_limited_denied t uid max win now now_w c :
  Utils.window_count uid t = Some c ->
  Utils.window_live uid now t = true ->
  max <= c ->
  Utils.is_rate_limited uid max win now now_w t = Ok (true, t).
Proof.
  unfold Utils.window_count, Utils.window_live, Utils.is_rate_limited.
  destruct (t !! Utils.rate_key uid) as [row|]; simpl; [|discriminate].
  intros -> Hlive Hmax. rewrite Hlive.
  now rewrite (proj2 (Z.leb_le max c) Hmax).
Qed.

Lemma is_rate_limited_counted t uid max win now now_w c :
  Utils.window_count uid t = Some c ->
  Utils.window_live uid now t = true ->
  c < max ->
  Utils.is_rate_limited uid max win now now_w t
  = Ok (false, <[Utils.rate_key uid := window_row (c + 1) win now_w]> t).
Proof.
  unfold Utils.window_count, Utils.window_live, Utils.is_rate_limited.
  destruct (t !! Utils.rate_key uid) as [row|]; simpl; [|discriminate].
  intros -> Hlive Hmax. rewrite Hlive.
  now rewrite (proj2 (Z.leb_gt max c) Hmax).
Qed.

Lemma is_rate_limited_expired t uid max win now now_w c :
  Utils.window_count uid t = Some c ->
  Utils.window_live uid now t = false ->
  Utils.is_rate_limited uid max win now now_w t
  = Ok (false, <[Utils.rate_key uid := window_row 1 win now_w]> t).
Proof.
  unfold Utils.window_count, Utils.window_live, Utils.is_rate_limited.
  destruct (t !! Utils.rate_key uid) as [row|]; simpl; [|discriminate].
  intros -> Hlive. rewrite Hlive.
  unfold Utils.cache_data, Utils.delete_cached_data.
  now rewrite insert_delete_eq.
Qed.

Lemma window_count_written t uid c win now_w :
  Utils.window_count uid (<[Utils.rate_key uid := window_row c win now_w]> t)
  = Some c.
Proof.
  unfold Utils.window_count. rewrite lookup_insert_eq. simpl. apply int_str.
Qed.

Lemma window_live_written t uid c win now_w now :
  win <> 0 ->
  Utils.window_live uid now (<[Utils.rate_key uid := window_row c win now_w]> t)
  = (now <? now_w + win).
Proof.
  intros Hwin. unfold Utils.window_live. rewrite lookup_insert_eq. simpl.
  now rewrite (proj2 (Z.eqb_neq win 0) Hwin).
Qed.

Lemma window_expires_at_written t uid c win now_w :
  Utils.window_expires_at uid (<[Utils.rate_key uid := window_row c win now_w]> t)
  = Some (if win =? 0 then None else Some (now_w + win)).
Proof.
  unfold Utils.window_expires_at. rewrite lookup_insert_eq. simpl.
  now destruct (win =? 0).
Qed.

End RateLimiter.



(** The expiry is renewed by every allowed check: three checks at 0, 0 and
    59 s leave a window that expires at 119 s, so a check at 60 s, one full
    window after the first check, is still refused. *)
Example is_rate_limited_window_renewed :
  exists t1 t2 t3,
    Utils.is_rate_limited 123 3 60 0 0 ∅ = Ok (false, t1)
    /\ Utils.is_rate_limited 123 3 60 0 0 t1 = Ok (false, t2)
    /\ Utils.is_rate_limited 123 3 60 59 59 t2 = Ok (false, t3)
    /\ Utils.window_expires_at 123 t3 = Some (Some 119)
    /\ Utils.is_rate_limited 123 3 60 60 60 t3 = Ok (true, t3).
Proof. eexists _, _, _. repeat split; vm_compute; reflexivity. Qed.




(** ** user_management.py: the ledger *)

Section Ledger.

Import UserManagement.

Lemma create_user_spec (w : World) (uid : Z) :
  create_user uid w =
    match users_fault w, users w !! uid with
    | Some _, _ =>
        (Ok tt, traced w [UsersInsertOrIgnore uid; Log ERROR "Error creating user"])
    | None, Some _ =>
        (Ok tt, traced w [UsersInsertOrIgnore uid; Log INFO "User created with ID"])
    | None, None =>
        (Ok tt, traced (with_users w (<[uid := default_row]> (users w)))
                       [UsersInsertOrIgnore uid; Log INFO "User created with ID"])
    end.
Proof.
  unfold create_user. run_monad.
  destruct (users_fault w); cbn.
  - now rewrite <- app_assoc.
  - destruct (users w !! uid); cbn; now rewrite <- app_assoc.
Qed.

Lemma update_coins_spec (w : World) (uid delta : Z) :
  update_coins uid delta w =
    match users_fault w, users w !! uid with
    | Some _, _ =>
        (Ok tt, traced w [UsersUpdateCoins uid delta; Log ERROR "Error updating coins"])
    | None, Some r =>
        (Ok tt, traced (with_users w (<[uid := mkUserRow (coins r + delta) (language r)
                                                  (achievements r)]> (users w)))
                       [UsersUpdateCoins uid delta; Log INFO "Updated coins for user"])
    | None, None =>
        (Ok tt, traced w [UsersUpdateCoins uid delta; Log INFO "User not found"])
    end.
Proof.
  unfold update_coins. run_monad.
  destruct (users_fault w); cbn.
  - now rewrite <- app_assoc.
  - destruct (users w !! uid); cbn; now rewrite <- app_assoc.
Qed.

Lemma set_language_spec (w : World) (uid : Z) (lang : string) :
  set_language uid lang w =
    match users_fault w, users w !! uid with
    | Some _, _ =>
        (Ok tt, traced w [UsersUpdateLanguage uid lang;
                          Log ERROR "Error setting language"])
    | None, Some r =>
        (Ok tt, traced (with_users w (<[uid := mkUserRow (coins r) lang
                                                  (achievements r)]> (users w)))
                       [UsersUpdateLanguage uid lang;
                        Log INFO "Language updated for user"])
    | None, None =>
        (Ok tt, traced w [UsersUpdateLanguage uid lang; Log INFO "User not found"])
    end.
Proof.
  unfold set_language. run_monad.
  destruct (users_fault w); cbn.
  - now rewrite <- app_assoc.
  - destruct (users w !! uid); cbn; now rewrite <- app_assoc.
Qed.

Lemma get_user_spec (w : World) (uid : Z) :
  get_user uid w =
    match primary_answer w uid with
    | Ok (Some u) =>
        (Ok (Some u), traced w [MongoFindOne uid; Log INFO "User found in MongoDB"])
    | other =>
        let w1 := traced w (MongoFindOne uid ::
                     match other with
                     | Raise _ => [Log ERROR "Error fetching user from MongoDB"]
                     | Ok _ => []
                     end) in
        match users_fault w with
        | Some e => (Raise e, traced w1 [UsersSelect uid])
        | None =>
            match secondary_user w uid with
            | Some u => (Ok (Some u),
                         traced w1 [UsersSelect uid; Log INFO "User found in SQLite"])
            | None => (Ok None,
                       traced w1 [UsersSelect uid; Log INFO "User not found."])
            end
        end
    end.
Proof.
  unfold get_user, primary_answer, secondary_user. run_monad.
  destruct (users_collection w) as [docs|e]; cbn.
  - destruct (List.find _ docs) as [u|]; cbn.
    + now rewrite <- app_assoc.
    + destruct (users_fault w); cbn; [now rewrite <- !app_assoc|].
      destruct (users w !! uid); cbn; now rewrite <- !app_assoc.
  - destruct (users_fault w); cbn; [now rewrite <- !app_assoc|].
    destruct (users w !! uid); cbn; now rewrite <- !app_assoc.
Qed.

End Ledger.

(** C5: [create_user] is idempotent. A second call leaves the whole
    [users] table, hence the balance, locale and achievements set by the
    first call, unchanged; a row that already exists is never overwritten;
    a user created while the store is operational has balance 10, locale
    "en" and achievements "[]"; no other user's row is touched. *)
Theorem create_user_idempotent (w : World) (uid : Z) :
  let w1 := snd (UserManagement.create_user uid w) in
  let w2 := snd (UserManagement.create_user uid w1) in
  users w2 = users w1
  /\ (forall row, users w !! uid = Some row -> users w1 = users w)
  /\ (users w !! uid = None -> users_fault w = None ->
        users w1 !! uid = Some (mkUserRow 10 "en" "[]"))
  /\ (forall uid', uid' <> uid -> users w1 !! uid' = users w !! uid').
Proof.
  cbv zeta. rewrite !create_user_spec.
  destruct (users_fault w) as [e|] eqn:Hf; cbn; rewrite ?Hf.
  - repeat split; intros; try reflexivity; congruence.
  - destruct (users w !! uid) as [row|] eqn:Hrow; cbn; rewrite ?Hf, ?Hrow; cbn.
    + repeat split; intros; try reflexivity; congruence.
    + rewrite lookup_insert_eq. cbn.
      split; [reflexivity|]. split; [intros row [=]|].
      split; [intros _ _; reflexivity|].
      intros uid' Hne. now apply lookup_insert_ne.
Qed.

Lemma create_user_idempotent_witness :
  let w := mkWorld (Ok []) {[ 1 := mkUserRow 3 "fr" "[]" ]} None ∅ [] in
  users (snd (UserManagement.create_user 1 w)) = users w
  /\ users (snd (UserManagement.create_user 2 w)) !! 2 = Some (mkUserRow 10 "en" "[]")
  /\ users (snd (UserManagement.create_user 2 w)) !! 1 = users w !! 1
  /\ users (snd (UserManagement.create_user 2 (snd (UserManagement.create_user 2 w))))
     = users (snd (UserManagement.create_user 2 w)).
Proof.
  intros w.
  destruct (create_user_idempotent w 1) as (_ & Hkeep & _ & _).
  destruct (create_user_idempotent w 2) as (Htwice & _ & Hnew & Hother).
  split; [apply (Hkeep (mkUserRow 3 "fr" "[]")); reflexivity|].
  split; [apply Hnew; reflexivity|].
  split; [apply Hother; lia|].
  exact Htwice.
Defined.

(** C8: [get_user] queries the primary store first, and reads the
    secondary store only when the primary gave no document. When the
    primary fails, the answer is the secondary store's and, the secondary
    being operational, no failure reaches the caller; when the primary has
    no document (or fails) and the secondary has no row, the result is
    absent, not an error. *)
Theorem get_user_primary_then_secondary (w : World) (uid : Z) :
  let r := fst (UserManagement.get_user uid w) in
  let w' := snd (UserManagement.get_user uid w) in
  (exists rest,
      trace w' = trace w ++ MongoFindOne uid :: rest
      /\ (forall u, primary_answer w uid = Ok (Some u) ->
            r = Ok (Some u) /\ ~ In (UsersSelect uid) rest))
  /\ (forall e, users_collection w = Raise e -> users_fault w = None ->
        r = Ok (secondary_user w uid) /\ In (UsersSelect uid) (trace w'))
  /\ (users_fault w = None -> exists o, r = Ok o)
  /\ (users_fault w = None ->
      (forall u, primary_answer w uid <> Ok (Some u)) ->
      users w !! uid = None ->
      r = Ok None).
Proof.
  cbv zeta. rewrite get_user_spec.
  unfold secondary_user, primary_answer.
  destruct (users_collection w) as [docs|e0]; cbn;
    [destruct (List.find _ docs) as [u0|]; cbn|];
    (destruct (users_fault w) as [f|]; cbn;
     [|destruct (users w !! uid) as [row|]; cbn]);
    (split; [|split; [|split]]).
  all: try (eexists; split; [rewrite <- ?app_assoc; reflexivity|];
            intros u Hu;
            first [discriminate Hu
                  | injection Hu as <-; split; [reflexivity|];
                    cbn; intros [H|[]]; discriminate H]).
  all: try (intros e He Hf;
            first [discriminate He | discriminate Hf
                  | split; [reflexivity|]; rewrite !in_app_iff; cbn; tauto]).
  all: try (intros Hf; first [discriminate Hf | eexists; reflexivity]).
  all: intros Hf Hp Hs;
       first [discriminate Hf | discriminate Hs | reflexivity
             | exfalso; apply (Hp u0); reflexivity].
Qed.

Lemma get_user_primary_then_secondary_witness :
  let w := mkWorld (Raise (StorageError "ServerSelectionTimeoutError"))
                   {[ 7 := mkUserRow 5 "fr" "[]" ]} None ∅ [] in
  fst (UserManagement.get_user 7 w) = Ok (Some (mkUser 7 5 "fr" "[]"))
  /\ fst (UserManagement.get_user 8 w) = Ok None
  /\ (exists o, fst (UserManagement.get_user 7 w) = Ok o).
Proof.
  intros w.
  destruct (get_user_primary_then_secondary w 7) as (_ & Hfall & Hok & _).
  destruct (get_user_primary_then_secondary w 8) as (_ & _ & _ & Habsent).
  split; [|split].
  - apply (Hfall (StorageError "ServerSelectionTimeoutError")); reflexivity.
  - apply Habsent; [reflexivity | discriminate | reflexivity].
  - apply Hok. reflexivity.
Defined.

(** When the secondary store itself is faulty and the primary gave no
    document, [get_user] raises the secondary store's exception. *)
Lemma get_user_secondary_failure (w : World) (uid : Z) (e : exn) :
  users_fault w = Some e ->
  (forall u, primary_answer w uid <> Ok (Some u)) ->
  fst (UserManagement.get_user uid w) = Raise e.
Proof.
  intros Hf Hp. rewrite get_user_spec.
  destruct (primary_answer w uid) as [[u|]|e0]; cbn; rewrite ?Hf; try reflexivity.
  now destruct (Hp u).
Qed.

(** [get_user] writes to no store. *)
Lemma get_user_frame (w : World) (uid : Z) :
  let w' := snd (UserManagement.get_user uid w) in
  users w' = users w /\ cache w' = cache w /\ users_fault w' = users_fault w
  /\ users_collection w' = users_collection w.
Proof.
  cbv zeta. rewrite get_user_spec.
  destruct (primary_answer w uid) as [[u|]|e0]; cbn;
    [|destruct (users_fault w) eqn:Hf; [|destruct (secondary_user w uid)]
     |destruct (users_fault w) eqn:Hf; [|destruct (secondary_user w uid)]];
    repeat split; cbn; congruence.
Qed.

(** C9, as amended: a failure of the secondary store during
    [update_coins] or [set_language] is caught inside the call: the call
    returns normally, the [users] table is unchanged, and the only record
    of the failure is an ERROR log entry. Neither call ever raises. *)
Theorem ledger_mutation_failure_is_swallowed
    (w : World) (uid delta : Z) (lang : string) (e : exn) :
  users_fault w = Some e ->
  UserManagement.update_coins uid delta w
  = (Ok tt, traced w [UsersUpdateCoins uid delta; Log ERROR "Error updating coins"])
  /\ UserManagement.set_language uid lang w
     = (Ok tt, traced w [UsersUpdateLanguage uid lang;
                         Log ERROR "Error setting language"])
  /\ (forall w0, fst (UserManagement.update_coins uid delta w0) = Ok tt)
  /\ (forall w0, fst (UserManagement.set_language uid lang w0) = Ok tt).
Proof.
  intros Hf. rewrite update_coins_spec, set_language_spec, Hf.
  repeat split; intros w0.
  - rewrite update_coins_spec.
    destruct (users_fault w0); [reflexivity|]. now destruct (users w0 !! uid).
  - rewrite set_language_spec.
    destruct (users_fault w0); [reflexivity|]. now destruct (users w0 !! uid).
Qed.

Lemma ledger_mutation_failure_is_swallowed_witness :
  let w := mkWorld (Ok []) {[ 7 := mkUserRow 5 "en" "[]" ]}
                   (Some (StorageError "database is locked")) ∅ [] in
  UserManagement.update_coins 7 (-1) w
  = (Ok tt, traced w [UsersUpdateCoins 7 (-1); Log ERROR "Error updating coins"])
  /\ UserManagement.set_language 7 "fr" w
     = (Ok tt, traced w [UsersUpdateLanguage 7 "fr";
                         Log ERROR "Error setting language"]).
Proof.
  intros w.
  destruct (ledger_mutation_failure_is_swallowed w 7 (-1) "fr"
              (StorageError "database is locked") eq_refl) as (H1 & H2 & _).
  split; assumption.
Defined.

(** C9, the input at which the claim as stated fails: with the secondary
    store failing on every statement, [update_coins] and [set_language]
    both return normally instead of raising, and the balance and locale of
    the user are what they were. *)
Lemma ledger_mutation_failure_not_propagated :
  let w := mkWorld (Ok []) {[ 7 := mkUserRow 5 "en" "[]" ]}
                   (Some (StorageError "database is locked")) ∅ [] in
  fst (UserManagement.update_coins 7 (-1) w) = Ok tt
  /\ fst (UserManagement.set_language 7 "fr" w) = Ok tt
  /\ (forall e, fst (UserManagement.update_coins 7 (-1) w) <> Raise e)
  /\ (forall e, fst (UserManagement.set_language 7 "fr" w) <> Raise e)
  /\ users (snd (UserManagement.update_coins 7 (-1) w)) !! 7
     = Some (mkUserRow 5 "en" "[]")
  /\ users (snd (UserManagement.set_language 7 "fr" w)) !! 7
     = Some (mkUserRow 5 "en" "[]").
Proof. intros w. repeat split; try discriminate. Qed.

(** ** bot_commands.py: the cache that the handler consults *)

Lemma bot_cache_data_spec (w : World) (k v : string) :
  BotCommands.cache_data k v w
  = (Ok tt, mkWorld (users_collection w) (users w) (users_fault w)
                    (<[k := mkCacheRow v None]> (cache w))
                    (trace w ++ [CacheReplace k v])).
Proof. reflexivity. Qed.

Lemma bot_get_cached_data_spec (w : World) (k : string) :
  BotCommands.get_cached_data k w
  = (Ok (value <$> cache w !! k), traced w [CacheSelect k]).
Proof. reflexivity. Qed.

Lemma bot_reads_frame (keys : list string) (w : World) :
  cache (snd (bot_reads keys w)) = cache w
  /\ users (snd (bot_reads keys w)) = users w
  /\ exists rs, fst (bot_reads keys w) = Ok rs.
Proof.
  revert w. induction keys as [|k rest IH]; intros w; cbn.
  - eauto.
  - unfold mbind, M_bind, bind. rewrite bot_get_cached_data_spec.
    destruct (IH (traced w [CacheSelect k])) as (Hc & Hu & rs & Hrs).
    destruct (bot_reads rest (traced w [CacheSelect k])) as [[rs'|e] w'];
      cbn in *; [|discriminate].
    eauto.
Qed.

(** C10: an entry written through the bot's [cache_data] carries no
    expiry; reads through the bot's [get_cached_data] take no clock and
    never change the table, so after any run of reads the key still reads
    as v; and even the expiry-aware reader of utils.py returns v for it at
    every clock reading, without evicting it. *)
Theorem bot_cache_has_no_expiry (w : World) (k v : string) (keys : list string) :
  let w1 := snd (BotCommands.cache_data k v w) in
  let w2 := snd (bot_reads keys w1) in
  cache w1 !! k = Some (mkCacheRow v None)
  /\ cache w2 = cache w1
  /\ fst (BotCommands.get_cached_data k w2) = Ok (Some v)
  /\ cache (snd (BotCommands.get_cached_data k w2)) = cache w1
  /\ forall now, Utils.get_cached_data k now (cache w2) = (Some v, cache w2).
Proof.
  cbv zeta.
  destruct (bot_reads_frame keys (snd (BotCommands.cache_data k v w))) as (Hc & _ & _).
  assert (Hrow : cache (snd (BotCommands.cache_data k v w)) !! k
                 = Some (mkCacheRow v None)).
  { rewrite bot_cache_data_spec. cbn. apply lookup_insert_eq. }
  rewrite !bot_get_cached_data_spec. cbn. rewrite Hc, Hrow.
  repeat split. intros now. now apply get_cached_data_no_expiry.
Qed.

(** ** bot_commands.py: the question handler *)

Lemma get_user_trace (w : World) (uid : Z) :
  exists es, trace (snd (UserManagement.get_user uid w)) = trace w ++ es
             /\ Forall quiet es.
Proof.
  rewrite get_user_spec.
  destruct (primary_answer w uid) as [[u|]|e0]; cbn;
    [|destruct (users_fault w); [|destruct (secondary_user w uid)]
     |destruct (users_fault w); [|destruct (secondary_user w uid)]];
    cbn; rewrite <- ?app_assoc; eexists; (split; [reflexivity|]);
    repeat constructor.
Qed.

Section HandleQuestion.

Variable scrape_past_papers : string -> string -> string -> result (list Document).
Variable find_similar_questions :
  string -> list Document -> option Q -> result (list Document).

Local Abbreviation handle :=
  (BotCommands.handle_question scrape_past_papers find_similar_questions).

(** C2: when the balance that [get_user] reports is at most 0, the
    handler replies that the user has not enough coins and ends the
    conversation at once; the ledger and the cache are unchanged, and the
    run contains no fetch, no debit and no cache access. *)
Theorem handle_question_insufficient_funds
    (update : Update) (ud : UserData) (w : World) (u : User) :
  fst (UserManagement.get_user (from_user_id update) w) = Ok (Some u) ->
  user_coins u <= 0 ->
  fst (handle update ud w) = Ok (END, ud)
  /\ users (snd (handle update ud w)) = users w
  /\ cache (snd (handle update ud w)) = cache w
  /\ exists es,
       trace (snd (handle update ud w))
       = trace w ++ es
                 ++ [Reply "You don't have enough coins to ask a question." []]
       /\ Forall quiet es.
Proof.
  intros Hu Hle.
  destruct (get_user_frame w (from_user_id update)) as (Hus & Hca & _).
  destruct (get_user_trace w (from_user_id update)) as (es & Htr & Hq).
  unfold BotCommands.handle_question. cbv [mbind M_bind bind].
  destruct (UserManagement.get_user (from_user_id update) w) as [r w1].
  cbn in Hu, Hus, Hca, Htr. subst r.
  rewrite (proj2 (Z.leb_le _ _) Hle). cbn.
  repeat split; try assumption.
  exists es. rewrite Htr, <- app_assoc. split; [reflexivity | assumption].
Qed.

Lemma emit_spec (e : Event) (w : World) : emit e w = (Ok tt, traced w [e]).
Proof. reflexivity. Qed.

Lemma traced_traced (w : World) (a b : list Event) :
  traced (traced w a) b = traced w (a ++ b).
Proof. unfold traced. cbn. now rewrite <- app_assoc. Qed.

Lemma update_coins_ok (w : World) (uid delta : Z) :
  fst (UserManagement.update_coins uid delta w) = Ok tt.
Proof.
  rewrite update_coins_spec.
  destruct (users_fault w); [reflexivity|]. now destruct (users w !! uid).
Qed.

Lemma truthy_str_some (o : option string) :
  truthy_str o = true -> exists v, o = Some v /\ v <> ""%string.
Proof. destruct o as [[|c r]|]; cbn; try discriminate; eauto. Qed.

(** The balance of [uid] after [update_coins uid delta], when the
    secondary store is operational and holds a row for [uid]. *)
Lemma update_coins_balance (w : World) (uid delta : Z) (row : UserRow) :
  users_fault w = None ->
  users w !! uid = Some row ->
  users (snd (UserManagement.update_coins uid delta w)) !! uid
  = Some (mkUserRow (coins row + delta) (language row) (achievements row)).
Proof.
  intros Hf Hrow. rewrite update_coins_spec, Hf, Hrow. cbn.
  apply lookup_insert_eq.
Qed.


Lemma call_scrape_spec (s l p : string) (w : World) :
  BotCommands.call_scrape scrape_past_papers s l p w
  = (scrape_past_papers s l p, traced w [Scrape s l p]).
Proof.
  unfold BotCommands.call_scrape. cbv [mbind M_bind bind]. rewrite emit_spec.
  now destruct (scrape_past_papers s l p).
Qed.

Lemma call_find_spec (q : string) (docs : list Document) (th : option Q) (w : World) :
  BotCommands.call_find find_similar_questions q docs th w
  = (find_similar_questions q docs th, traced w [FindSimilar q th]).
Proof.
  unfold BotCommands.call_find. cbv [mbind M_bind bind]. rewrite emit_spec.
  now destruct (find_similar_questions q docs th).
Qed.

(** C1, as amended: a request that reaches the matching step (positive
    balance, complete selection, cache miss, a non-empty document set) and
    for which the matcher returns neither an exact match nor a similar
    question gets the reply "No matching or similar questions found.";
    the handler then calls [update_coins(user_id, -1)] and returns
    SELECT_SIMILAR, so the conversation is not ended. With the secondary
    store operational and holding the user's row, the stored balance
    drops by one. The cache is not written. *)
Theorem handle_question_no_match
    (update : Update) (ud : UserData) (w : World) (u : User)
    (docs : list Document) :
  let q := strip (text update) in
  let s := default ""%string (subject ud) in
  let l := default ""%string (level ud) in
  let p := default ""%string (paper ud) in
  fst (UserManagement.get_user (from_user_id update) w) = Ok (Some u) ->
  0 < user_coins u ->
  forallb truthy_str [subject ud; level ud; paper ud] = true ->
  truthy_str (value <$> cache w !! request_key update ud) = false ->
  scrape_past_papers s l p = Ok docs ->
  docs <> [] ->
  find_similar_questions q docs None = Ok [] ->
  find_similar_questions q docs (Some (8 # 10)%Q) = Ok [] ->
  let w1 := snd (UserManagement.get_user (from_user_id update) w) in
  fst (handle update ud w) = Ok (SELECT_SIMILAR, ud)
  /\ snd (handle update ud w)
     = snd (UserManagement.update_coins (from_user_id update) (-1)
              (traced w1 [CacheSelect (request_key update ud);
                          Scrape s l p;
                          FindSimilar q None;
                          FindSimilar q (Some (8 # 10)%Q);
                          Reply "No matching or similar questions found." []]))
  /\ cache (snd (handle update ud w)) = cache w
  /\ (forall row, users_fault w = None ->
        users w !! from_user_id update = Some row ->
        users (snd (handle update ud w)) !! from_user_id update
        = Some (mkUserRow (coins row - 1) (language row) (achievements row))).
Proof.
  intros q s l p Hu Hpos Hsel Hmiss Hscrape Hdocs Hexact Hsimilar w1.
  destruct (get_user_frame w (from_user_id update)) as (Hus & Hca & Hfa & _).
  fold w1 in Hus, Hca, Hfa.
  assert (Hrun : handle update ud w
                 = (let r := UserManagement.update_coins (from_user_id update) (-1)
                      (traced w1 [CacheSelect (request_key update ud);
                                  Scrape s l p;
                                  FindSimilar q None;
                                  FindSimilar q (Some (8 # 10)%Q);
                                  Reply "No matching or similar questions found." []]) in
                    (Ok (SELECT_SIMILAR, ud), snd r))).
  { unfold BotCommands.handle_question. cbv [mbind M_bind bind try_except].
    subst w1.
    destruct (UserManagement.get_user (from_user_id update) w) as [r w1].
    cbn in Hu, Hca. subst r.
    rewrite (proj2 (Z.leb_gt _ _) Hpos), Hsel. cbn [negb].
    rewrite bot_get_cached_data_spec. fold (request_key update ud).
    rewrite Hca, Hmiss.
    fold q s l p.
    rewrite call_scrape_spec, Hscrape.
    destruct docs as [|d0 docs']; [congruence|].
    rewrite call_find_spec, Hexact.
    rewrite call_find_spec, Hsimilar.
    unfold BotCommands.reply_text. rewrite emit_spec, !traced_traced. cbn [app].
    cbv beta iota delta [ret].
    pose proof (update_coins_ok
                  (traced w1 [CacheSelect (request_key update ud);
                              Scrape s l p;
                              FindSimilar q None;
                              FindSimilar q (Some (8 # 10)%Q);
                              Reply "No matching or similar questions found." []])
                  (from_user_id update) (-1)) as Hok.
    destruct (UserManagement.update_coins _ _ _) as [r w2].
    cbn in Hok. subst r. reflexivity. }
  rewrite Hrun. cbn [fst snd]. split; [reflexivity|]. split; [reflexivity|].
  split.
  - rewrite update_coins_spec. cbn.
    destruct (users_fault w1); [exact Hca|].
    destruct (users w1 !! from_user_id update); exact Hca.
  - intros row Hf Hrow.
    rewrite (update_coins_balance _ _ _ row); [reflexivity| |]; cbn; congruence.
Qed.

End HandleQuestion.

Lemma handle_question_no_match_witness :
  fst (demo_run 10 ∅) = Ok (SELECT_SIMILAR, demo_selection)
  /\ cache (snd (demo_run 10 ∅)) = ∅
  /\ users (snd (demo_run 10 ∅)) !! 7 = Some (mkUserRow (10 - 1) "en" "[]").
Proof.
  destruct (handle_question_no_match demo_scrape demo_find_nothing demo_update
              demo_selection (demo_world 10 ∅) (mkUser 7 10 "en" "[]") demo_docs)
    as (Hst & _ & Hcache & Hbal); [(reflexivity || discriminate) .. |].
  split; [exact Hst|]. split; [exact Hcache|].
  apply (Hbal (mkUserRow 10 "en" "[]")); reflexivity.
Defined.

(** C1, the input at which the claim as stated fails: user 7 holds 10
    coins, the selection is complete, the cache is empty, the fetch returns
    two documents and the matcher finds neither an exact nor a similar
    question. The not-found reply is sent, but the conversation moves to
    SELECT_SIMILAR instead of ending, and the stored balance becomes 9. *)
Lemma handle_question_no_match_debits_and_continues :
  In (Reply "No matching or similar questions found." []) (trace (snd (demo_run 10 ∅)))
  /\ fst (demo_run 10 ∅) = Ok (SELECT_SIMILAR, demo_selection)
  /\ fst (demo_run 10 ∅) <> Ok (END, demo_selection)
  /\ users (demo_world 10 ∅) !! 7 = Some (mkUserRow 10 "en" "[]")
  /\ users (snd (demo_run 10 ∅)) !! 7 = Some (mkUserRow 9 "en" "[]")
  /\ In (UsersUpdateCoins 7 (-1)) (trace (snd (demo_run 10 ∅))).
Proof.
  vm_compute. repeat split; try discriminate; tauto.
Qed.

Lemma handle_question_insufficient_funds_witness :
  fst (demo_run 0 ∅) = Ok (END, demo_selection)
  /\ users (snd (demo_run 0 ∅)) = users (demo_world 0 ∅)
  /\ cache (snd (demo_run 0 ∅)) = cache (demo_world 0 ∅)
  /\ exists es,
       trace (snd (demo_run 0 ∅))
       = trace (demo_world 0 ∅) ++ es
           ++ [Reply "You don't have enough coins to ask a question." []]
       /\ Forall quiet es.
Proof.
  apply (handle_question_insufficient_funds demo_scrape demo_find_nothing
           demo_update demo_selection (demo_world 0 ∅) (mkUser 7 0 "en" "[]")).
  - reflexivity.
  - cbn. lia.
Defined.



(** A first request with an exact match, then the same request again:
    the answer is cached and one coin is taken, then the cache answers and
    a second coin is taken without any fetch. *)
Example handle_question_exact_then_cached :
  let ask := BotCommands.handle_question demo_scrape demo_find_exact
               demo_exact_update demo_selection in
  let w1 := snd (ask (demo_world 10 ∅)) in
  let w2 := snd (ask (mkWorld (users_collection w1) (users w1) (users_fault w1)
                              (cache w1) [])) in
  fst (ask (demo_world 10 ∅)) = Ok (SELECT_SIMILAR, demo_selection)
  /\ In (Reply "Exact match found: 4" []) (trace w1)
  /\ users w1 !! 7 = Some (mkUserRow 9 "en" "[]")
  /\ cache w1 !! request_key demo_exact_update demo_selection
     = Some (mkCacheRow "4" None)
  /\ fst (ask w1) = Ok (END, demo_selection)
  /\ In (Reply "Cached answer: 4" []) (trace w2)
  /\ users w2 !! 7 = Some (mkUserRow 8 "en" "[]")
  /\ forallb (fun e => negb (is_fetch e)) (trace w2) = true.
Proof. vm_compute. repeat split; tauto. Qed.

(** * Further properties of the code *)

(** ** utils.py: the cache table *)



Lemma read_at_no_expiry (t : CacheTable) (k v : string) (times : list Z) :
  t !! k = Some (mkCacheRow v None) ->
  read_at k times t = (List.map (fun _ => Some v) times, t).
Proof.
  intros Hk. induction times as [|now rest IH]; cbn; [reflexivity|].
  rewrite (get_cached_data_no_expiry t k v now Hk). now rewrite IH.
Qed.

(** X2: an entry stored with a falsy [expire] (None or 0) has no expiry:
    every read of the key, at whatever clock readings and however often,
    returns the value and leaves the table as it is. *)
Theorem cache_data_without_ttl_never_expires
    (t : CacheTable) (k v : string) (expire : option Z) (now : Z) (times : list Z) :
  truthy_int expire = false ->
  let t1 := Utils.cache_data k v expire now t in
  t1 !! k = Some (mkCacheRow v None)
  /\ read_at k times t1 = (List.map (fun _ => Some v) times, t1).
Proof.
  intros Hfalsy t1.
  assert (Hrow : t1 !! k = Some (mkCacheRow v None)).
  { subst t1. rewrite cache_data_lookup. now rewrite Hfalsy. }
  split; [exact Hrow|]. now apply read_at_no_expiry.
Qed.

Lemma cache_data_without_ttl_never_expires_witness :
  read_at "k" [0; 10 ^ 12] (Utils.cache_data "k" "v" None 100 ∅)
  = ([Some "v"; Some "v"]%string, Utils.cache_data "k" "v" None 100 ∅).
Proof.
  apply (cache_data_without_ttl_never_expires ∅ "k" "v" None 100 [0; 10 ^ 12]).
  reflexivity.
Defined.

(** ** utils.py: the rate limiter *)





Lemma window_live_of_expiry (t : CacheTable) (uid now e : Z) :
  Utils.window_expires_at uid t = Some (Some e) ->
  Utils.window_live uid now t = (now <? e).
Proof.
  unfold Utils.window_expires_at, Utils.window_live.
  destruct (t !! Utils.rate_key uid) as [row|]; cbn; [|discriminate].
  now intros [= ->].
Qed.

(** Checks against a live window whose expiry lies beyond every clock
    reading of the run: the first [max_requests - c] are allowed, the rest
    refused. *)
Lemma rate_checks_live_window (uid max win lo : Z) (clocks : list (Z * Z)) :
  win <> 0 ->
  Forall (fun cw => lo <= snd cw /\ fst cw < lo + win) clocks ->
  forall (t : CacheTable) (c e : Z),
    Utils.window_count uid t = Some c ->
    Utils.window_expires_at uid t = Some (Some e) ->
    lo + win <= e ->
    exists t',
      rate_checks uid max win clocks t
      = Ok (replicate (min (length clocks) (Z.to_nat (max - c))) false
              ++ replicate (length clocks - Z.to_nat (max - c)) true, t').
Proof.
  intros Hwin Hclocks.
  induction Hclocks as [|[now now_w] rest [Hlo Hhi] _ IH]; intros t c e Hc He Hle.
  - exists t. reflexivity.
  - cbn [rate_checks length]. cbn in Hlo, Hhi.
    assert (Hlive : Utils.window_live uid now t = true).
    { rewrite (window_live_of_expiry t uid now e He). apply Z.ltb_lt. lia. }
    destruct (Z.le_gt_cases max c) as [Hfull|Hroom].
    + rewrite (is_rate_limited_denied t uid max win now now_w c Hc Hlive Hfull).
      destruct (IH t c e Hc He Hle) as (t' & ->).
      exists t'. replace (Z.to_nat (max - c)) with 0%nat by lia.
      rewrite !Nat.min_0_r, !Nat.sub_0_r. reflexivity.
    + rewrite (is_rate_limited_counted t uid max win now now_w c Hc Hlive Hroom).
      destruct (IH (<[Utils.rate_key uid := window_row (c + 1) win now_w]> t)
                   (c + 1) (now_w + win)) as (t' & ->).
      * apply window_count_written.
      * rewrite window_expires_at_written.
        now rewrite (proj2 (Z.eqb_neq win 0) Hwin).
      * lia.
      * exists t'.
        replace (Z.to_nat (max - c)) with (S (Z.to_nat (max - (c + 1)))) by lia.
        reflexivity.
Qed.



(** ** user_management.py: the ledger *)

Lemma update_coins_frame (w : World) (uid delta : Z) :
  let w' := snd (UserManagement.update_coins uid delta w) in
  users_collection w' = users_collection w
  /\ users_fault w' = users_fault w
  /\ cache w' = cache w
  /\ (forall uid', uid' <> uid -> users w' !! uid' = users w !! uid').
Proof.
  cbv zeta. rewrite update_coins_spec.
  destruct (users_fault w) eqn:Hf; [cbn; auto|].
  destruct (users w !! uid) eqn:Hrow; cbn; repeat split; auto.
  intros uid' Hne. now apply lookup_insert_ne.
Qed.

Lemma set_language_frame (w : World) (uid : Z) (lang : string) :
  let w' := snd (UserManagement.set_language uid lang w) in
  users_collection w' = users_collection w
  /\ users_fault w' = users_fault w
  /\ cache w' = cache w
  /\ (forall uid', uid' <> uid -> users w' !! uid' = users w !! uid').
Proof.
  cbv zeta. rewrite set_language_spec.
  destruct (users_fault w) eqn:Hf; [cbn; auto|].
  destruct (users w !! uid) eqn:Hrow; cbn; repeat split; auto.
  intros uid' Hne. now apply lookup_insert_ne.
Qed.

Lemma create_user_frame (w : World) (uid : Z) :
  let w' := snd (UserManagement.create_user uid w) in
  users_collection w' = users_collection w
  /\ users_fault w' = users_fault w
  /\ cache w' = cache w.
Proof.
  cbv zeta. rewrite create_user_spec.
  destruct (users_fault w) eqn:Hf; [cbn; auto|].
  destruct (users w !! uid) eqn:Hrow; cbn; auto.
Qed.



(** X7: a ledger mutation for a user who has no row in the secondary
    store is a silent no-op: [update_coins] and [set_language] return
    normally, create no row, leave the table as it is, and record only the
    INFO line "User not found". *)
Theorem ledger_mutation_of_unknown_user_is_dropped
    (w : World) (uid delta : Z) (lang : string) :
  users_fault w = None ->
  users w !! uid = None ->
  UserManagement.update_coins uid delta w
  = (Ok tt, traced w [UsersUpdateCoins uid delta; Log INFO "User not found"])
  /\ UserManagement.set_language uid lang w
     = (Ok tt, traced w [UsersUpdateLanguage uid lang; Log INFO "User not found"]).
Proof.
  intros Hf Hrow. now rewrite update_coins_spec, set_language_spec, Hf, Hrow.
Qed.

Lemma ledger_mutation_of_unknown_user_is_dropped_witness :
  users (snd (UserManagement.update_coins 8 (-1) (demo_world 10 ∅)))
  = users (demo_world 10 ∅)
  /\ users (snd (UserManagement.set_language 8 "fr" (demo_world 10 ∅)))
     = users (demo_world 10 ∅).
Proof.
  destruct (ledger_mutation_of_unknown_user_is_dropped (demo_world 10 ∅) 8 (-1) "fr"
              eq_refl eq_refl) as [H1 H2].
  rewrite H1, H2. split; reflexivity.
Defined.

(** X8: [set_language] stores whatever string it is given (it is not
    restricted to "en" and "fr") and changes nothing else: the user's
    balance and achievements and every other row stay as they are. *)
Theorem set_language_changes_only_the_locale
    (w : World) (uid : Z) (lang : string) (row : UserRow) :
  users_fault w = None ->
  users w !! uid = Some row ->
  let w' := snd (UserManagement.set_language uid lang w) in
  users w' !! uid = Some (mkUserRow (coins row) lang (achievements row))
  /\ (forall uid', uid' <> uid -> users w' !! uid' = users w !! uid')
  /\ cache w' = cache w.
Proof.
  intros Hf Hrow w'.
  destruct (set_language_frame w uid lang) as (_ & _ & Hc & Hother).
  split; [|split; assumption].
  subst w'. rewrite set_language_spec, Hf, Hrow. cbn. apply lookup_insert_eq.
Qed.

Lemma set_language_changes_only_the_locale_witness :
  users (snd (UserManagement.set_language 7 "tlh" (demo_world 10 ∅))) !! 7
  = Some (mkUserRow 10 "tlh" "[]").
Proof.
  destruct (set_language_changes_only_the_locale (demo_world 10 ∅) 7 "tlh"
              (mkUserRow 10 "en" "[]") eq_refl eq_refl) as (H & _).
  exact H.
Defined.

Lemma primary_answer_frame (w w' : World) (uid : Z) :
  users_collection w' = users_collection w ->
  primary_answer w' uid = primary_answer w uid.
Proof. intros H. unfold primary_answer. now rewrite H. Qed.

(** X9: after [create_user(uid)], with the secondary store operational
    and no document for the user in the primary store (or the primary
    failing), [get_user(uid)] is never absent: it returns the row that
    existed before, or the default user with 10 coins and locale "en". *)
Theorem create_user_then_get_user (w : World) (uid : Z) :
  users_fault w = None ->
  (forall u, primary_answer w uid <> Ok (Some u)) ->
  fst (UserManagement.get_user uid (snd (UserManagement.create_user uid w)))
  = Ok (Some match users w !! uid with
             | Some row => mkUser uid (coins row) (language row) (achievements row)
             | None => mkUser uid 10 "en" "[]"
             end).
Proof.
  intros Hf Hp.
  destruct (create_user_frame w uid) as (Hcol & Hf' & _).
  assert (Hrow' : users (snd (UserManagement.create_user uid w)) !! uid
                  = Some (default (mkUserRow 10 "en" "[]") (users w !! uid))).
  { rewrite create_user_spec, Hf.
    destruct (users w !! uid) as [row|] eqn:Hrow; cbn; [exact Hrow|].
    apply lookup_insert_eq. }
  set (w1 := snd (UserManagement.create_user uid w)) in *.
  rewrite get_user_spec, (primary_answer_frame w w1 uid Hcol), Hf', Hf.
  unfold secondary_user. rewrite Hrow'.
  destruct (primary_answer w uid) as [[u|]|e]; cbn;
    [now destruct (Hp u) | |]; now destruct (users w !! uid).
Qed.

Lemma create_user_then_get_user_witness :
  fst (UserManagement.get_user 8
         (snd (UserManagement.create_user 8 (demo_world 3 ∅))))
  = Ok (Some (mkUser 8 10 "en" "[]"))
  /\ fst (UserManagement.get_user 7
            (snd (UserManagement.create_user 7 (demo_world 3 ∅))))
     = Ok (Some (mkUser 7 3 "en" "[]")).
Proof.
  split.
  - apply (create_user_then_get_user (demo_world 3 ∅) 8); [reflexivity|].
    intros u H. discriminate H.
  - apply (create_user_then_get_user (demo_world 3 ∅) 7); [reflexivity|].
    intros u H. discriminate H.
Defined.

(** X10: while the primary store holds a document for the user,
    [get_user] keeps returning that document: neither [update_coins] nor
    [set_language] nor [create_user], which write to the secondary store
    only, changes the balance or locale that [get_user] reports. *)
Theorem get_user_does_not_see_secondary_writes
    (w : World) (uid delta : Z) (lang : string) (u : User) :
  primary_answer w uid = Ok (Some u) ->
  fst (UserManagement.get_user uid w) = Ok (Some u)
  /\ fst (UserManagement.get_user uid (snd (UserManagement.update_coins uid delta w)))
     = Ok (Some u)
  /\ fst (UserManagement.get_user uid (snd (UserManagement.set_language uid lang w)))
     = Ok (Some u)
  /\ fst (UserManagement.get_user uid (snd (UserManagement.create_user uid w)))
     = Ok (Some u).
Proof.
  intros Hp.
  destruct (update_coins_frame w uid delta) as (H1 & _).
  destruct (set_language_frame w uid lang) as (H2 & _).
  destruct (create_user_frame w uid) as (H3 & _).
  rewrite !get_user_spec.
  rewrite (primary_answer_frame w _ uid H1), (primary_answer_frame w _ uid H2),
    (primary_answer_frame w _ uid H3), Hp.
  repeat split.
Qed.

Lemma get_user_does_not_see_secondary_writes_witness :
  let w := mkWorld (Ok [mkUser 7 10 "en" "[]"]) {[ 7 := mkUserRow 10 "en" "[]" ]}
                   None ∅ [] in
  users (snd (UserManagement.update_coins 7 (-10) w)) !! 7
  = Some (mkUserRow 0 "en" "[]")
  /\ fst (UserManagement.get_user 7 (snd (UserManagement.update_coins 7 (-10) w)))
     = Ok (Some (mkUser 7 10 "en" "[]")).
Proof.
  intros w. split; [reflexivity|].
  apply (get_user_does_not_see_secondary_writes w 7 (-10) "en" (mkUser 7 10 "en" "[]")).
  reflexivity.
Defined.

(** ** bot_commands.py: every path of the question handler *)

Section HandleQuestionPaths.

Variable scrape_past_papers : string -> string -> string -> result (list Document).
Variable find_similar_questions :
  string -> list Document -> option Q -> result (list Document).

Local Abbreviation handle :=
  (BotCommands.handle_question scrape_past_papers find_similar_questions).

Lemma traced_with_cache (w : World) (c : CacheTable) (es : list Event) :
  traced (with_cache w c) es = with_cache (traced w es) c.
Proof. reflexivity. Qed.

Lemma cache_traced (w : World) (es : list Event) : cache (traced w es) = cache w.
Proof. reflexivity. Qed.

Lemma bot_cache_data_with_cache (w : World) (k v : string) :
  BotCommands.cache_data k v w
  = (Ok tt, with_cache (traced w [CacheReplace k v])
                       (<[k := mkCacheRow v None]> (cache w))).
Proof. reflexivity. Qed.

Lemma update_coins_run (w : World) (uid delta : Z) :
  UserManagement.update_coins uid delta w
  = (Ok tt, snd (UserManagement.update_coins uid delta w)).
Proof.
  pose proof (update_coins_ok w uid delta) as H.
  destruct (UserManagement.update_coins uid delta w) as [r w']. cbn in *.
  now subst r.
Qed.

(** The handler, path by path. [w1] is the world after [get_user]. *)
Lemma handle_question_paths (update : Update) (ud : UserData) (w : World) :
  let uid := from_user_id update in
  let q := strip (text update) in
  let s := default ""%string (subject ud) in
  let l := default ""%string (level ud) in
  let p := default ""%string (paper ud) in
  let key := request_key update ud in
  let w1 := snd (UserManagement.get_user uid w) in
  let debit := fun w' => snd (UserManagement.update_coins uid (-1) w') in
  handle update ud w =
  match fst (UserManagement.get_user uid w) with
  | Raise e => (Raise e, w1)
  | Ok None => (Raise TypeError, w1)
  | Ok (Some u) =>
      if user_coins u <=? 0 then
        (Ok (END, ud),
         traced w1 [Reply "You don't have enough coins to ask a question." []])
      else if negb (forallb truthy_str [subject ud; level ud; paper ud]) then
        (Ok (END, ud),
         traced w1 [Reply "Please complete the selection process before asking a question." []])
      else
        let w2 := traced w1 [CacheSelect key] in
        let cached := value <$> cache w1 !! key in
        if truthy_str cached then
          (Ok (END, ud),
           debit (traced w2 [Reply ("Cached answer: " +:+ default "" cached) []]))
        else
          let w3 := traced w2 [Scrape s l p] in
          match scrape_past_papers s l p with
          | Raise _ => (Ok (SELECT_SIMILAR, ud), error_exit w3)
          | Ok [] =>
              (Ok (END, ud),
               traced w3 [Reply "No past papers found for the selected subject, level, and paper." []])
          | Ok (d :: ds) =>
              let docs := d :: ds in
              let w4 := traced w3 [FindSimilar q None] in
              match find_similar_questions q docs None with
              | Raise _ => (Ok (SELECT_SIMILAR, ud), error_exit w4)
              | Ok (m0 :: _) =>
                  (Ok (SELECT_SIMILAR, ud),
                   debit (with_cache
                            (traced w4 [Reply ("Exact match found: " +:+ answer m0) [];
                                        CacheReplace key (answer m0)])
                            (<[key := mkCacheRow (answer m0) None]> (cache w1))))
              | Ok [] =>
                  let w5 := traced w4 [FindSimilar q (Some (8 # 10)%Q)] in
                  match find_similar_questions q docs (Some (8 # 10)%Q) with
                  | Raise _ => (Ok (SELECT_SIMILAR, ud), error_exit w5)
                  | Ok (s0 :: rest) =>
                      let similar := s0 :: rest in
                      (Ok (SELECT_SIMILAR,
                           mkUserData (subject ud) (level ud) (paper ud) (Some similar)),
                       debit (with_cache
                                (traced w5
                                   [Reply "The following question was found:" [];
                                    Reply (question s0) [];
                                    Reply (answer s0) [];
                                    CacheReplace key (answer s0);
                                    Reply "Here are some similar questions:"
                                          (BotCommands.similar_keyboard similar)])
                                (<[key := mkCacheRow (answer s0) None]> (cache w1))))
                  | Ok [] =>
                      (Ok (SELECT_SIMILAR, ud),
                       debit (traced w5
                                [Reply "No matching or similar questions found." []]))
                  end
              end
          end
  end.
Proof.
  cbv zeta.
  unfold BotCommands.handle_question. cbv [mbind M_bind bind try_except].
  destruct (UserManagement.get_user (from_user_id update) w) as [[[u|]|e] w1];
    cbn [fst snd]; try reflexivity.
  destruct (user_coins u <=? 0); [reflexivity|].
  destruct (forallb truthy_str [subject ud; level ud; paper ud]); cbn [negb];
    [|reflexivity].
  rewrite bot_get_cached_data_spec. fold (request_key update ud).
  cbn [cache traced].
  destruct (truthy_str (value <$> cache w1 !! request_key update ud)).
  { unfold BotCommands.reply_text. rewrite emit_spec, traced_traced.
    rewrite update_coins_run. reflexivity. }
  rewrite call_scrape_spec.
  destruct (scrape_past_papers _ _ _) as [[|d ds]|e].
  - unfold BotCommands.reply_text. rewrite emit_spec, !traced_traced. reflexivity.
  - rewrite call_find_spec.
    destruct (find_similar_questions _ (d :: ds) None) as [[|m0 ms]|e].
    + rewrite call_find_spec.
      destruct (find_similar_questions _ (d :: ds) (Some _)) as [[|s0 rest]|e].
      * unfold BotCommands.reply_text. rewrite emit_spec, !traced_traced.
        cbv beta iota delta [ret]. rewrite update_coins_run. reflexivity.
      * unfold BotCommands.reply_text, BotCommands.list_similar_questions.
        rewrite !emit_spec, bot_cache_data_with_cache.
        cbv beta iota delta [ret]. rewrite emit_spec.
        rewrite update_coins_run. cbv beta iota delta [ret].
        rewrite traced_with_cache, !traced_traced, !cache_traced. reflexivity.
      * unfold error_exit, logging, BotCommands.reply_text.
        rewrite !emit_spec, !traced_traced. reflexivity.
    + unfold BotCommands.reply_text.
      rewrite emit_spec, bot_cache_data_with_cache.
      cbv beta iota delta [ret]. rewrite update_coins_run.
      cbv beta iota delta [ret].
      rewrite !traced_traced, !cache_traced. reflexivity.
    + unfold error_exit, logging, BotCommands.reply_text.
      rewrite !emit_spec, !traced_traced. reflexivity.
  - unfold error_exit, logging, BotCommands.reply_text.
    rewrite !emit_spec, !traced_traced. reflexivity.
Qed.

End HandleQuestionPaths.

Section HandleQuestionOutcomes.

Variable scrape_past_papers : string -> string -> string -> result (list Document).
Variable find_similar_questions :
  string -> list Document -> option Q -> result (list Document).

Local Abbreviation handle :=
  (BotCommands.handle_question scrape_past_papers find_similar_questions).

(** X11: a request from a user with a positive balance whose selection
    of subject, level and paper is incomplete (one of them missing or
    empty) is answered with the request to complete the selection and ends
    the conversation; the ledger and the cache are unchanged and the run
    contains no cache access, no fetch and no debit. *)
Theorem handle_question_incomplete_selection
    (update : Update) (ud : UserData) (w : World) (u : User) :
  fst (UserManagement.get_user (from_user_id update) w) = Ok (Some u) ->
  0 < user_coins u ->
  forallb truthy_str [subject ud; level ud; paper ud] = false ->
  fst (handle update ud w) = Ok (END, ud)
  /\ users (snd (handle update ud w)) = users w
  /\ cache (snd (handle update ud w)) = cache w
  /\ exists es,
       trace (snd (handle update ud w))
       = trace w ++ es
           ++ [Reply "Please complete the selection process before asking a question." []]
       /\ Forall quiet es.
Proof.
  intros Hu Hpos Hsel.
  destruct (get_user_frame w (from_user_id update)) as (Hus & Hca & _).
  destruct (get_user_trace w (from_user_id update)) as (es & Htr & Hq).
  rewrite handle_question_paths. cbv zeta.
  rewrite Hu, (proj2 (Z.leb_gt _ _) Hpos), Hsel. cbn.
  repeat split; try assumption.
  exists es. rewrite Htr, <- app_assoc. split; [reflexivity | assumption].
Qed.

(** X12: when the fetch returns no document, the handler replies that no
    past papers were found and ends the conversation: nothing is debited,
    nothing is cached, and the matcher is never called. *)
Theorem handle_question_no_papers
    (update : Update) (ud : UserData) (w : World) (u : User) :
  fst (UserManagement.get_user (from_user_id update) w) = Ok (Some u) ->
  0 < user_coins u ->
  forallb truthy_str [subject ud; level ud; paper ud] = true ->
  truthy_str (value <$> cache w !! request_key update ud) = false ->
  scrape_past_papers (default ""%string (subject ud)) (default ""%string (level ud))
                     (default ""%string (paper ud)) = Ok [] ->
  fst (handle update ud w) = Ok (END, ud)
  /\ users (snd (handle update ud w)) = users w
  /\ cache (snd (handle update ud w)) = cache w
  /\ exists es,
       trace (snd (handle update ud w))
       = trace w ++ es
           ++ [CacheSelect (request_key update ud);
               Scrape (default ""%string (subject ud)) (default ""%string (level ud))
                      (default ""%string (paper ud));
               Reply "No past papers found for the selected subject, level, and paper." []]
       /\ Forall quiet es.
Proof.
  intros Hu Hpos Hsel Hmiss Hscrape.
  destruct (get_user_frame w (from_user_id update)) as (Hus & Hca & _).
  destruct (get_user_trace w (from_user_id update)) as (es & Htr & Hq).
  rewrite handle_question_paths. cbv zeta.
  rewrite Hu, (proj2 (Z.leb_gt _ _) Hpos), Hsel, Hca, Hmiss, Hscrape. cbn.
  repeat split; try assumption.
  exists es. rewrite Htr, <- !app_assoc. split; [reflexivity | assumption].
Qed.

(** X13: when the fetch or a matcher call raises, the exception is
    caught: the handler logs an error, sends the generic failure reply and
    returns SELECT_SIMILAR instead of raising; the ledger and the cache are
    unchanged and nothing is debited. *)
Theorem handle_question_lookup_failure
    (update : Update) (ud : UserData) (w : World) (u : User) :
  fst (UserManagement.get_user (from_user_id update) w) = Ok (Some u) ->
  0 < user_coins u ->
  forallb truthy_str [subject ud; level ud; paper ud] = true ->
  truthy_str (value <$> cache w !! request_key update ud) = false ->
  lookup_raises scrape_past_papers find_similar_questions update ud ->
  fst (handle update ud w) = Ok (SELECT_SIMILAR, ud)
  /\ users (snd (handle update ud w)) = users w
  /\ cache (snd (handle update ud w)) = cache w
  /\ exists es,
       trace (snd (handle update ud w))
       = trace w ++ es
           ++ [Log ERROR "Error handling question";
               Reply "An error occurred while processing your request." []]
       /\ Forall (fun e => is_debit e = false) es.
Proof.
  intros Hu Hpos Hsel Hmiss Hraise.
  destruct (get_user_frame w (from_user_id update)) as (Hus & Hca & _).
  destruct (get_user_trace w (from_user_id update)) as (es & Htr & Hq).
  assert (Hq' : Forall (fun e => is_debit e = false) es).
  { eapply Forall_impl; [exact Hq|]. now intros e (_ & H & _). }
  rewrite handle_question_paths. cbv zeta.
  rewrite Hu, (proj2 (Z.leb_gt _ _) Hpos), Hsel, Hca, Hmiss. cbn [negb].
  unfold lookup_raises in Hraise. cbv zeta in Hraise.
  set (key := request_key update ud) in *.
  set (s := default ""%string (subject ud)) in *.
  set (l := default ""%string (level ud)) in *.
  set (p := default ""%string (paper ud)) in *.
  set (q := strip (text update)) in *.
  destruct (scrape_past_papers s l p) as [[|d ds]|e]; [easy| |].
  - destruct (find_similar_questions q (d :: ds) None) as [[|m0 ms]|e]; [|easy|].
    + destruct (find_similar_questions q (d :: ds) (Some _)) as [[|s0 rest]|e];
        [easy|easy|].
      cbn [fst snd]. unfold error_exit. rewrite !traced_traced. cbn [app].
      repeat split; try assumption.
      exists (es ++ [CacheSelect key; Scrape s l p; FindSimilar q None;
                     FindSimilar q (Some (8 # 10)%Q)]).
      split; [cbn; rewrite Htr, <- !app_assoc; reflexivity|].
      apply Forall_app. split; [assumption|]. repeat constructor.
    + cbn [fst snd]. unfold error_exit. rewrite !traced_traced. cbn [app].
      repeat split; try assumption.
      exists (es ++ [CacheSelect key; Scrape s l p; FindSimilar q None]).
      split; [cbn; rewrite Htr, <- !app_assoc; reflexivity|].
      apply Forall_app. split; [assumption|]. repeat constructor.
  - cbn [fst snd]. unfold error_exit. rewrite !traced_traced. cbn [app].
    repeat split; try assumption.
    exists (es ++ [CacheSelect key; Scrape s l p]).
    split; [cbn; rewrite Htr, <- !app_assoc; reflexivity|].
    apply Forall_app. split; [assumption|]. repeat constructor.
Qed.


(** The run on an exact match: result and final world. *)
Lemma handle_question_exact_run
    (update : Update) (ud : UserData) (w : World) (u : User)
    (docs : list Document) (m0 : Document) (ms : list Document) :
  let q := strip (text update) in
  let s := default ""%string (subject ud) in
  let l := default ""%string (level ud) in
  let p := default ""%string (paper ud) in
  let key := request_key update ud in
  fst (UserManagement.get_user (from_user_id update) w) = Ok (Some u) ->
  0 < user_coins u ->
  forallb truthy_str [subject ud; level ud; paper ud] = true ->
  truthy_str (value <$> cache w !! key) = false ->
  scrape_past_papers s l p = Ok docs ->
  docs <> [] ->
  find_similar_questions q docs None = Ok (m0 :: ms) ->
  let w1 := snd (UserManagement.get_user (from_user_id update) w) in
  handle update ud w
  = (Ok (SELECT_SIMILAR, ud),
     snd (UserManagement.update_coins (from_user_id update) (-1)
            (with_cache
               (traced w1 [CacheSelect key; Scrape s l p; FindSimilar q None;
                           Reply ("Exact match found: " +:+ answer m0) [];
                           CacheReplace key (answer m0)])
               (<[key := mkCacheRow (answer m0) None]> (cache w))))).
Proof.
  intros q s l p key Hu Hpos Hsel Hmiss Hscrape Hdocs Hexact w1.
  destruct (get_user_frame w (from_user_id update)) as (Hus & Hca & Hfa & _).
  fold w1 in Hus, Hca, Hfa.
  rewrite handle_question_paths. cbv zeta.
  rewrite Hu, (proj2 (Z.leb_gt _ _) Hpos), Hsel. cbn [negb].
  fold w1 key. rewrite Hca. fold key in Hmiss. rewrite Hmiss.
  fold s l p q. rewrite Hscrape.
  destruct docs as [|d ds]; [congruence|]. rewrite Hexact.
  rewrite !traced_traced. cbn [app]. reflexivity.
Qed.

Lemma update_coins_cache (w : World) (uid delta : Z) :
  cache (snd (UserManagement.update_coins uid delta w)) = cache w.
Proof. now destruct (update_coins_frame w uid delta) as (_ & _ & H & _). Qed.

(** X15: on an exact match the handler replies with the answer of the
    first match, stores it in the cache under the request key with no
    expiry, calls [update_coins(user_id, -1)] and returns SELECT_SIMILAR.
    The matcher is not called a second time, so documents that would pass
    the similarity threshold play no part. *)
Theorem handle_question_exact_match
    (update : Update) (ud : UserData) (w : World) (u : User)
    (docs : list Document) (m0 : Document) (ms : list Document) :
  let q := strip (text update) in
  let s := default ""%string (subject ud) in
  let l := default ""%string (level ud) in
  let p := default ""%string (paper ud) in
  let key := request_key update ud in
  fst (UserManagement.get_user (from_user_id update) w) = Ok (Some u) ->
  0 < user_coins u ->
  forallb truthy_str [subject ud; level ud; paper ud] = true ->
  truthy_str (value <$> cache w !! key) = false ->
  scrape_past_papers s l p = Ok docs ->
  docs <> [] ->
  find_similar_questions q docs None = Ok (m0 :: ms) ->
  let w1 := snd (UserManagement.get_user (from_user_id update) w) in
  fst (handle update ud w) = Ok (SELECT_SIMILAR, ud)
  /\ snd (handle update ud w)
     = snd (UserManagement.update_coins (from_user_id update) (-1)
              (with_cache
                 (traced w1 [CacheSelect key; Scrape s l p; FindSimilar q None;
                             Reply ("Exact match found: " +:+ answer m0) [];
                             CacheReplace key (answer m0)])
                 (<[key := mkCacheRow (answer m0) None]> (cache w))))
  /\ cache (snd (handle update ud w)) = <[key := mkCacheRow (answer m0) None]> (cache w)
  /\ (forall row, users_fault w = None ->
        users w !! from_user_id update = Some row ->
        users (snd (handle update ud w)) !! from_user_id update
        = Some (mkUserRow (coins row - 1) (language row) (achievements row))).
Proof.
  intros q s l p key Hu Hpos Hsel Hmiss Hscrape Hdocs Hexact w1.
  destruct (get_user_frame w (from_user_id update)) as (Hus & Hca & Hfa & _).
  fold w1 in Hus, Hca, Hfa.
  rewrite (handle_question_exact_run update ud w u docs m0 ms
             Hu Hpos Hsel Hmiss Hscrape Hdocs Hexact).
  fold q s l p key w1. cbn [fst snd].
  split; [reflexivity|]. split; [reflexivity|].
  split; [apply update_coins_cache|].
  intros row Hf Hrow.
  rewrite (update_coins_balance _ _ _ row); [reflexivity| |]; cbn; congruence.
Qed.

(** X16: with no exact match but a non-empty list of similar questions,
    the handler sends the question and the answer of the first candidate,
    stores that answer in the cache under the request key, keeps the whole
    candidate list (not only the five that get a button) in the session,
    calls [update_coins(user_id, -1)] and returns SELECT_SIMILAR. *)
Theorem handle_question_similar_match
    (update : Update) (ud : UserData) (w : World) (u : User)
    (docs : list Document) (s0 : Document) (rest : list Document) :
  let q := strip (text update) in
  let s := default ""%string (subject ud) in
  let l := default ""%string (level ud) in
  let p := default ""%string (paper ud) in
  let key := request_key update ud in
  fst (UserManagement.get_user (from_user_id update) w) = Ok (Some u) ->
  0 < user_coins u ->
  forallb truthy_str [subject ud; level ud; paper ud] = true ->
  truthy_str (value <$> cache w !! key) = false ->
  scrape_past_papers s l p = Ok docs ->
  docs <> [] ->
  find_similar_questions q docs None = Ok [] ->
  find_similar_questions q docs (Some (8 # 10)%Q) = Ok (s0 :: rest) ->
  let w1 := snd (UserManagement.get_user (from_user_id update) w) in
  fst (handle update ud w)
  = Ok (SELECT_SIMILAR,
        mkUserData (subject ud) (level ud) (paper ud) (Some (s0 :: rest)))
  /\ snd (handle update ud w)
     = snd (UserManagement.update_coins (from_user_id update) (-1)
              (with_cache
                 (traced w1 [CacheSelect key; Scrape s l p; FindSimilar q None;
                             FindSimilar q (Some (8 # 10)%Q);
                             Reply "The following question was found:" [];
                             Reply (question s0) [];
                             Reply (answer s0) [];
                             CacheReplace key (answer s0);
                             Reply "Here are some similar questions:"
                                   (BotCommands.similar_keyboard (s0 :: rest))])
                 (<[key := mkCacheRow (answer s0) None]> (cache w))))
  /\ cache (snd (handle update ud w)) = <[key := mkCacheRow (answer s0) None]> (cache w)
  /\ (forall row, users_fault w = None ->
        users w !! from_user_id update = Some row ->
        users (snd (handle update ud w)) !! from_user_id update
        = Some (mkUserRow (coins row - 1) (language row) (achievements row))).
Proof.
  intros q s l p key Hu Hpos Hsel Hmiss Hscrape Hdocs Hexact Hsim w1.
  destruct (get_user_frame w (from_user_id update)) as (Hus & Hca & Hfa & _).
  fold w1 in Hus, Hca, Hfa.
  rewrite handle_question_paths. cbv zeta.
  rewrite Hu, (proj2 (Z.leb_gt _ _) Hpos), Hsel. cbn [negb].
  fold w1 key. rewrite Hca. fold key in Hmiss. rewrite Hmiss.
  fold s l p q. rewrite Hscrape.
  destruct docs as [|d ds]; [congruence|]. rewrite Hexact, Hsim.
  cbn [fst snd]. rewrite !traced_traced. cbn [app].
  split; [reflexivity|]. split; [reflexivity|].
  split.
  - destruct (update_coins_frame
                (with_cache
                   (traced w1 [CacheSelect key; Scrape s l p; FindSimilar q None;
                               FindSimilar q (Some (8 # 10)%Q);
                               Reply "The following question was found:" [];
                               Reply (question s0) [];
                               Reply (answer s0) [];
                               CacheReplace key (answer s0);
                               Reply "Here are some similar questions:"
                                     (BotCommands.similar_keyboard (s0 :: rest))])
                   (<[key := mkCacheRow (answer s0) None]> (cache w)))
                (from_user_id update) (-1)) as (_ & _ & Hc & _).
    exact Hc.
  - intros row Hf Hrow.
    rewrite (update_coins_balance _ _ _ row); [reflexivity| |]; cbn; congruence.
Qed.

Lemma update_coins_users (w : World) (uid delta : Z) :
  users (snd (UserManagement.update_coins uid delta w))
  = match users_fault w, users w !! uid with
    | None, Some r =>
        <[uid := mkUserRow (coins r + delta) (language r) (achievements r)]> (users w)
    | _, _ => users w
    end.
Proof.
  rewrite update_coins_spec.
  destruct (users_fault w); [reflexivity|]. now destruct (users w !! uid).
Qed.


Lemma update_coins_trace (w : World) (uid delta : Z) :
  exists lvl msg,
    trace (snd (UserManagement.update_coins uid delta w))
    = trace w ++ [UsersUpdateCoins uid delta; Log lvl msg].
Proof.
  rewrite update_coins_spec.
  destruct (users_fault w); [cbn; eauto|].
  destruct (users w !! uid); cbn; eauto.
Qed.

(** X18: an empty string stored under the request key is never served:
    the handler treats it as a cache miss and goes on to fetch the
    documents. *)
Theorem handle_question_empty_cached_answer
    (update : Update) (ud : UserData) (w : World) (u : User) (e : option Z) :
  fst (UserManagement.get_user (from_user_id update) w) = Ok (Some u) ->
  0 < user_coins u ->
  forallb truthy_str [subject ud; level ud; paper ud] = true ->
  cache w !! request_key update ud = Some (mkCacheRow "" e) ->
  exists before after,
    trace (snd (handle update ud w))
    = before ++ [CacheSelect (request_key update ud);
                 Scrape (default ""%string (subject ud)) (default ""%string (level ud))
                        (default ""%string (paper ud))] ++ after.
Proof.
  intros Hu Hpos Hsel Hrow.
  destruct (get_user_frame w (from_user_id update)) as (_ & Hca & _).
  rewrite handle_question_paths. cbv zeta.
  rewrite Hu, (proj2 (Z.leb_gt _ _) Hpos), Hsel, Hca, Hrow. cbn [negb fmap option_fmap option_map value truthy_str].
  set (w1 := snd (UserManagement.get_user (from_user_id update) w)).
  assert (Hd : forall w' es,
    trace w' = trace w1 ++ [CacheSelect (request_key update ud);
                 Scrape (default ""%string (subject ud)) (default ""%string (level ud))
                        (default ""%string (paper ud))] ++ es ->
    exists before after,
      trace (snd (UserManagement.update_coins (from_user_id update) (-1) w'))
      = before ++ [CacheSelect (request_key update ud);
                   Scrape (default ""%string (subject ud)) (default ""%string (level ud))
                          (default ""%string (paper ud))] ++ after).
  { intros w' es Hw'.
    destruct (update_coins_trace w' (from_user_id update) (-1)) as (lvl & msg & ->).
    rewrite Hw'. eexists (trace w1), _. rewrite <- !app_assoc. reflexivity. }
  destruct (scrape_past_papers _ _ _) as [[|d ds]|ex]; cbn [fst snd].
  - eexists (trace w1), _. cbn. rewrite <- !app_assoc. reflexivity.
  - destruct (find_similar_questions _ (d :: ds) None) as [[|m0 ms]|ex]; cbn [fst snd].
    + destruct (find_similar_questions _ (d :: ds) (Some _)) as [[|s0 rest]|ex];
        cbn [fst snd].
      * eapply Hd. cbn. rewrite <- !app_assoc. reflexivity.
      * eapply Hd. cbn. rewrite <- !app_assoc. reflexivity.
      * eexists (trace w1), _. cbn. rewrite <- !app_assoc. reflexivity.
    + eapply Hd. cbn. rewrite <- !app_assoc. reflexivity.
    + eexists (trace w1), _. cbn. rewrite <- !app_assoc. reflexivity.
  - eexists (trace w1), _. cbn. rewrite <- !app_assoc. reflexivity.
Qed.

(** X19: the answer that an exact match stores is served to the next
    identical request: if that answer is not empty and the user still has
    a positive balance, the second run finds it under the same key, replies
    with it, calls [update_coins(user_id, -1)] and ends the conversation,
    without fetching any document. *)
Theorem handle_question_exact_match_then_cache_hit
    (update : Update) (ud : UserData) (w : World) (u u' : User)
    (docs : list Document) (m0 : Document) (ms : list Document) :
  let q := strip (text update) in
  let s := default ""%string (subject ud) in
  let l := default ""%string (level ud) in
  let p := default ""%string (paper ud) in
  let key := request_key update ud in
  fst (UserManagement.get_user (from_user_id update) w) = Ok (Some u) ->
  0 < user_coins u ->
  forallb truthy_str [subject ud; level ud; paper ud] = true ->
  truthy_str (value <$> cache w !! key) = false ->
  scrape_past_papers s l p = Ok docs ->
  docs <> [] ->
  find_similar_questions q docs None = Ok (m0 :: ms) ->
  answer m0 <> ""%string ->
  let w' := snd (handle update ud w) in
  fst (UserManagement.get_user (from_user_id update) w') = Ok (Some u') ->
  0 < user_coins u' ->
  fst (handle update ud w') = Ok (END, ud)
  /\ snd (handle update ud w')
     = snd (UserManagement.update_coins (from_user_id update) (-1)
              (traced (snd (UserManagement.get_user (from_user_id update) w'))
                      [CacheSelect key; Reply ("Cached answer: " +:+ answer m0) []])).
Proof.
  intros q s l p key Hu Hpos Hsel Hmiss Hscrape Hdocs Hexact Hans w' Hu' Hpos'.
  assert (Hcache : cache w' = <[key := mkCacheRow (answer m0) None]> (cache w)).
  { subst w'.
    rewrite (handle_question_exact_run update ud w u docs m0 ms
               Hu Hpos Hsel Hmiss Hscrape Hdocs Hexact).
    cbn [snd]. apply update_coins_cache. }
  destruct (get_user_frame w' (from_user_id update)) as (_ & Hca & _).
  rewrite (handle_question_paths scrape_past_papers find_similar_questions update ud w').
  cbv zeta. rewrite Hu', (proj2 (Z.leb_gt _ _) Hpos'), Hsel. cbn [negb].
  fold key. rewrite Hca, Hcache, lookup_insert_eq. cbn [fmap option_fmap option_map value].
  replace (truthy_str (Some (answer m0))) with true
    by (destruct (answer m0); [congruence | reflexivity]).
  cbn [default]. rewrite traced_traced. split; reflexivity.
Qed.

End HandleQuestionOutcomes.

Lemma handle_question_incomplete_selection_witness :
  fst (BotCommands.handle_question demo_scrape demo_find_nothing demo_update
         demo_partial_selection (demo_world 10 ∅))
  = Ok (END, demo_partial_selection).
Proof.
  destruct (handle_question_incomplete_selection demo_scrape demo_find_nothing
              demo_update demo_partial_selection (demo_world 10 ∅)
              (mkUser 7 10 "en" "[]")) as (H & _); [reflexivity .. |].
  exact H.
Defined.

Lemma handle_question_no_papers_witness :
  fst (BotCommands.handle_question demo_scrape_empty demo_find_nothing demo_update
         demo_selection (demo_world 10 ∅))
  = Ok (END, demo_selection)
  /\ users (snd (BotCommands.handle_question demo_scrape_empty demo_find_nothing
                   demo_update demo_selection (demo_world 10 ∅)))
     = users (demo_world 10 ∅).
Proof.
  destruct (handle_question_no_papers demo_scrape_empty demo_find_nothing
              demo_update demo_selection (demo_world 10 ∅)
              (mkUser 7 10 "en" "[]")) as (H1 & H2 & _); [reflexivity .. |].
  split; assumption.
Defined.

Lemma handle_question_lookup_failure_witness :
  fst (BotCommands.handle_question demo_scrape_fails demo_find_nothing demo_update
         demo_selection (demo_world 10 ∅))
  = Ok (SELECT_SIMILAR, demo_selection)
  /\ fst (BotCommands.handle_question demo_scrape demo_find_fails demo_update
            demo_selection (demo_world 10 ∅))
     = Ok (SELECT_SIMILAR, demo_selection)
  /\ users (snd (BotCommands.handle_question demo_scrape demo_find_fails demo_update
                   demo_selection (demo_world 10 ∅)))
     = users (demo_world 10 ∅).
Proof.
  destruct (handle_question_lookup_failure demo_scrape_fails demo_find_nothing
              demo_update demo_selection (demo_world 10 ∅)
              (mkUser 7 10 "en" "[]")) as (H1 & _);
    [first [reflexivity | exact I] .. |].
  destruct (handle_question_lookup_failure demo_scrape demo_find_fails
              demo_update demo_selection (demo_world 10 ∅)
              (mkUser 7 10 "en" "[]")) as (H2 & H3 & _);
    [first [reflexivity | exact I] .. |].
  repeat split; assumption.
Defined.


Lemma handle_question_exact_match_witness :
  fst (BotCommands.handle_question demo_scrape demo_find_exact demo_exact_update
         demo_selection (demo_world 10 ∅))
  = Ok (SELECT_SIMILAR, demo_selection)
  /\ cache (snd (BotCommands.handle_question demo_scrape demo_find_exact
                   demo_exact_update demo_selection (demo_world 10 ∅)))
     = <[request_key demo_exact_update demo_selection := mkCacheRow "4" None]> ∅
  /\ users (snd (BotCommands.handle_question demo_scrape demo_find_exact
                   demo_exact_update demo_selection (demo_world 10 ∅))) !! 7
     = Some (mkUserRow (10 - 1) "en" "[]").
Proof.
  destruct (handle_question_exact_match demo_scrape demo_find_exact
              demo_exact_update demo_selection (demo_world 10 ∅)
              (mkUser 7 10 "en" "[]") demo_docs (mkDocument "What is 2+2?" "4") [])
    as (H1 & _ & H3 & H4); [(reflexivity || discriminate) .. |].
  split; [exact H1|]. split; [exact H3|].
  apply (H4 (mkUserRow 10 "en" "[]")); reflexivity.
Defined.

Lemma handle_question_similar_match_witness :
  fst (BotCommands.handle_question demo_scrape demo_find_similar demo_update
         demo_selection (demo_world 10 ∅))
  = Ok (SELECT_SIMILAR,
        mkUserData (subject demo_selection) (level demo_selection)
                   (paper demo_selection) (Some demo_docs))
  /\ cache (snd (BotCommands.handle_question demo_scrape demo_find_similar
                   demo_update demo_selection (demo_world 10 ∅)))
     = <[request_key demo_update demo_selection := mkCacheRow "4" None]> ∅.
Proof.
  destruct (handle_question_similar_match demo_scrape demo_find_similar
              demo_update demo_selection (demo_world 10 ∅)
              (mkUser 7 10 "en" "[]") demo_docs (mkDocument "What is 2+2?" "4")
              [mkDocument "What is 3+3?" "6"])
    as (H1 & _ & H3 & _); [(reflexivity || discriminate) .. |].
  split; assumption.
Defined.


Lemma handle_question_empty_cached_answer_witness :
  exists before after,
    trace (snd (BotCommands.handle_question demo_scrape demo_find_nothing demo_update
                  demo_selection
                  (demo_world 10 {[ request_key demo_update demo_selection
                                    := mkCacheRow "" None ]})))
    = before ++ [CacheSelect (request_key demo_update demo_selection);
                 Scrape "Mathematics" "O-Level" "Paper 1"] ++ after.
Proof.
  apply (handle_question_empty_cached_answer demo_scrape demo_find_nothing
           demo_update demo_selection
           (demo_world 10 {[ request_key demo_update demo_selection
                             := mkCacheRow "" None ]})
           (mkUser 7 10 "en" "[]") None); reflexivity.
Defined.

Lemma handle_question_exact_match_then_cache_hit_witness :
  fst (BotCommands.handle_question demo_scrape demo_find_exact demo_exact_update
         demo_selection
         (snd (BotCommands.handle_question demo_scrape demo_find_exact
                 demo_exact_update demo_selection (demo_world 10 ∅))))
  = Ok (END, demo_selection).
Proof.
  destruct (handle_question_exact_match_then_cache_hit demo_scrape demo_find_exact
              demo_exact_update demo_selection (demo_world 10 ∅)
              (mkUser 7 10 "en" "[]") (mkUser 7 9 "en" "[]")
              demo_docs (mkDocument "What is 2+2?" "4") [])
    as (H & _); [(reflexivity || discriminate) .. |].
  exact H.
Defined.
